(** * watchlog-api: the watchlist and progress services

    A shallow embedding of [src/models/*.py], [src/api/progress.py], the
    seasons and deletion parts of [src/api/series.py] and the deletion
    part of [src/api/movies.py].

    - Integers are [Z] (Python integers are unbounded) and nullable
      columns are [option].
    - The database session is an explicit [Store] that every service
      function receives and returns; a raised exception is the [Raise]
      branch of [Py.result], and the caller then keeps the old store.
    - Clock readings ([datetime.utcnow()]) are a parameter [now].
    - JSON payloads are records of optional fields: a numeric key that is
      present holds a JSON integer.
    - [percentage_watched] is computed in hundredths of a percent on the
      exact quotient, so that no floating-point arithmetic is involved.

    The first half of the file holds the definitions, the second half the
    properties, grouped by the part of the code they are about. *)

From Stdlib Require Import ZArith List String Ascii Bool Lia.
From Stdlib Require Import Decimal DecimalString DecimalZ DecimalPos.
From Stdlib Require Import Permutation Sorted.
Import ListNotations.

Local Open Scope Z_scope.

(* ================================================================== *)
(** ** The Python fragments the services rely on *)

Module Py.

(** The exception classes raised on the modelled paths. *)
Inductive exn : Type :=
| ValueError (msg : string)
| TypeError (msg : string)
| StopIteration.

Inductive result (A : Type) : Type :=
| Ok (a : A)
| Raise (e : exn).
Arguments Ok {A} a.
Arguments Raise {A} e.

Definition bind {A B : Type} (m : result A) (k : A -> result B) : result B :=
  match m with
  | Ok a => k a
  | Raise e => Raise e
  end.

(** Truth value of a nullable integer: [None] and [0] are false. *)
Definition truthy (x : option Z) : bool :=
  match x with
  | Some z => negb (z =? 0)
  | None => false
  end.

(** [x or 0] on a nullable integer. *)
Definition or0 (x : option Z) : Z :=
  match x with
  | Some z => z
  | None => 0
  end.

(** [x > y] where [x] may be [None]: Python 3 raises [TypeError]. *)
Definition gt (x : option Z) (y : Z) : result bool :=
  match x with
  | Some z => Ok (y <? z)
  | None =>
      Raise (TypeError
               "'>' not supported between instances of 'NoneType' and 'int'")
  end.

(** [max(g)] over a non-empty sequence, given as head and tail. *)
Definition max_of (x : Z) (xs : list Z) : Z := fold_left Z.max xs x.

(** [sum(g)]. *)
Definition sum (xs : list Z) : Z := fold_left Z.add xs 0.

(** [str(n)] for an integer: the decimal numeral. *)
Definition str_of_int (z : Z) : string := NilZero.string_of_int (Z.to_int z).

(** [pat in s] on strings. *)
Fixpoint contains (pat s : string) : bool :=
  String.prefix pat s
  || match s with
     | EmptyString => false
     | String _ rest => contains pat rest
     end.

(** [round(n / d)] to the nearest integer, ties to the even neighbour,
    computed on the exact quotient. *)
Definition round_half_even (n d : Z) : Z :=
  let n' := if d <? 0 then - n else n in
  let d' := Z.abs d in
  let q := n' / d' in
  let r := n' mod d' in
  if 2 * r <? d' then q
  else if d' <? 2 * r then q + 1
  else if Z.even q then q else q + 1.

(** *** [int(s)] on a string

    The characters of a string are Latin-1 code points (what an HTTP
    header value decodes to).  [int] drops surrounding white space,
    accepts one sign and then decimal digits, where single underscores
    may separate digits. *)

Definition is_space (c : ascii) : bool :=
  let n := nat_of_ascii c in
  ((9 <=? n) && (n <=? 13) || (n =? 32) || (n =? 133) || (n =? 160))%nat.

Fixpoint lstrip (cs : list ascii) : list ascii :=
  match cs with
  | c :: rest => if is_space c then lstrip rest else cs
  | [] => []
  end.

Definition strip (cs : list ascii) : list ascii :=
  List.rev (lstrip (List.rev (lstrip cs))).

Definition digit (c : ascii) : option (uint -> uint) :=
  match c with
  | "0"%char => Some D0
  | "1"%char => Some D1
  | "2"%char => Some D2
  | "3"%char => Some D3
  | "4"%char => Some D4
  | "5"%char => Some D5
  | "6"%char => Some D6
  | "7"%char => Some D7
  | "8"%char => Some D8
  | "9"%char => Some D9
  | _ => None
  end.

Definition is_underscore (c : ascii) : bool := Ascii.eqb c "_"%char.

(** The digits of a numeral, most significant first; [cs] starts where a
    digit is required. *)
Fixpoint digits (cs : list ascii) : option uint :=
  match cs with
  | [] => None
  | c :: rest =>
      match digit c with
      | None => None
      | Some d =>
          match rest with
          | [] => Some (d Nil)
          | u :: rest' =>
              if is_underscore u then option_map d (digits rest')
              else option_map d (digits rest)
          end
      end
  end.

(** [int(s)]: [None] stands for [ValueError]. *)
Definition int_of_str (s : string) : option Z :=
  match strip (list_ascii_of_string s) with
  | c :: ds =>
      if Ascii.eqb c "-"%char then
        option_map (fun u => Z.of_int (Neg u)) (digits ds)
      else if Ascii.eqb c "+"%char then
        option_map (fun u => Z.of_int (Pos u)) (digits ds)
      else option_map (fun u => Z.of_int (Pos u)) (digits (c :: ds))
  | [] => None
  end.

End Py.

Notation "x <- m ;; k" := (Py.bind m (fun x => k))
  (at level 61, m at next level, right associativity).


Local Open Scope string_scope.

(* ================================================================== *)
(** ** Models ([src/models]) *)

(** A row of [movies].  Only the columns the watchlist reads are kept. *)
Module Movie.
Record t : Type := mk { id : Z; title : string }.
End Movie.

(** A row of [series]. *)
Module Series.
Record t : Type := mk { id : Z; title : string; total_seasons : Z }.
End Series.

(** A row of [seasons]. *)
Module Season.
Record t : Type :=
  mk { id : Z; series_id : Z; number : Z; episodes_count : Z }.

Definition to_dict (self : t) : t := self.
End Season.

(** A row of [watch_entries], with the methods of the model class. *)
Module WatchEntry.

Record t : Type := mk {
  id : option Z;
  user_id : Z;
  content_type : string;
  content_id : Z;
  status : string;
  current_season : option Z;
  current_episode : option Z;
  watched_episodes : option Z;
  total_episodes : option Z;
  created_at : option Z;
  updated_at : option Z;
  movie_content_id : option Z;
  series_content_id : option Z
}.

Definition set_status (v : string) (e : t) : t :=
  mk (id e) (user_id e) (content_type e) (content_id e) v
     (current_season e) (current_episode e) (watched_episodes e)
     (total_episodes e) (created_at e) (updated_at e)
     (movie_content_id e) (series_content_id e).

Definition set_current_season (v : option Z) (e : t) : t :=
  mk (id e) (user_id e) (content_type e) (content_id e) (status e)
     v (current_episode e) (watched_episodes e)
     (total_episodes e) (created_at e) (updated_at e)
     (movie_content_id e) (series_content_id e).

Definition set_current_episode (v : option Z) (e : t) : t :=
  mk (id e) (user_id e) (content_type e) (content_id e) (status e)
     (current_season e) v (watched_episodes e)
     (total_episodes e) (created_at e) (updated_at e)
     (movie_content_id e) (series_content_id e).

Definition set_watched_episodes (v : option Z) (e : t) : t :=
  mk (id e) (user_id e) (content_type e) (content_id e) (status e)
     (current_season e) (current_episode e) v
     (total_episodes e) (created_at e) (updated_at e)
     (movie_content_id e) (series_content_id e).

Definition set_total_episodes (v : option Z) (e : t) : t :=
  mk (id e) (user_id e) (content_type e) (content_id e) (status e)
     (current_season e) (current_episode e) (watched_episodes e)
     v (created_at e) (updated_at e)
     (movie_content_id e) (series_content_id e).

Definition set_updated_at (v : option Z) (e : t) : t :=
  mk (id e) (user_id e) (content_type e) (content_id e) (status e)
     (current_season e) (current_episode e) (watched_episodes e)
     (total_episodes e) (created_at e) v
     (movie_content_id e) (series_content_id e).

Definition set_movie_content_id (v : option Z) (e : t) : t :=
  mk (id e) (user_id e) (content_type e) (content_id e) (status e)
     (current_season e) (current_episode e) (watched_episodes e)
     (total_episodes e) (created_at e) (updated_at e)
     v (series_content_id e).

Definition set_series_content_id (v : option Z) (e : t) : t :=
  mk (id e) (user_id e) (content_type e) (content_id e) (status e)
     (current_season e) (current_episode e) (watched_episodes e)
     (total_episodes e) (created_at e) (updated_at e)
     (movie_content_id e) v.

(** The constructor call [WatchEntry(...)]: the keyword arguments the services pass
    ([None] for one that is not passed), then the body of [__init__]. *)
Definition init (user_id : Z) (content_type : string) (content_id : Z)
    (status : string)
    (total_episodes watched_episodes current_season current_episode : option Z)
    : t :=
  let self :=
    mk None user_id content_type content_id status
       current_season current_episode watched_episodes total_episodes
       None None None None in
  if content_type =? "movie" then
    set_watched_episodes (Some 0)
      (set_total_episodes (Some 1)
         (set_movie_content_id (Some content_id) self))
  else if content_type =? "series" then
    set_series_content_id (Some content_id) self
  else self.

(** [percentage_watched], in hundredths of a percent: [100.0] is
    [10000] and [27.78] is [2778].  The float quotient
    [(watched / total) * 100] is taken exactly and [round(_, 2)] rounds
    it to the nearest hundredth, ties to even. *)
Definition percentage_watched (self : t) : Z :=
  if status self =? "watched" then 10000
  else if negb (Py.truthy (total_episodes self)) then 0
  else
    let total := Py.or0 (total_episodes self) in
    let watched := Z.min (Py.or0 (watched_episodes self)) total in
    Py.round_half_even (watched * 10000) total.

(** [mark_as_watched].  [series_content] is what the relationship
    [self.series_content] loads: [None] when there is no related series,
    else the [seasons] of that series. *)
Definition mark_as_watched (series_content : option (list Season.t))
    (now : Z) (self : t) : Py.result t :=
  let self := set_status "watched" self in
  self <-
    (if content_type self =? "movie" then
       Py.Ok (set_watched_episodes (Some 1) self)
     else if (content_type self =? "series")
             && Py.truthy (total_episodes self) then
       let self := set_watched_episodes (total_episodes self) self in
       match series_content with
       | Some ((s0 :: rest) as seasons) =>
           let last_season :=
             Py.max_of (Season.number s0) (map Season.number rest) in
           let self := set_current_season (Some last_season) self in
           match find (fun s => Season.number s =? last_season)%Z seasons with
           | Some s =>
               Py.Ok (set_current_episode (Some (Season.episodes_count s)) self)
           | None => Py.Raise Py.StopIteration
           end
       | _ => Py.Ok self
       end
     else Py.Ok self) ;;
  Py.Ok (set_updated_at (Some now) self).

(** The dictionary [to_dict] builds. *)
Record dict : Type := mk_dict {
  d_id : option Z;
  d_user_id : Z;
  d_content_type : string;
  d_content_id : Z;
  d_status : string;
  d_current_season : option Z;
  d_current_episode : option Z;
  d_watched_episodes : option Z;
  d_total_episodes : option Z;
  d_percentage_watched : Z;
  d_updated_at : option Z
}.

Definition to_dict (self : t) : dict :=
  mk_dict (id self) (user_id self) (content_type self) (content_id self)
          (status self) (current_season self) (current_episode self)
          (watched_episodes self) (total_episodes self)
          (percentage_watched self) (updated_at self).

End WatchEntry.

(* ================================================================== *)
(** ** The database session

    The tables the services read and write.  A commit is the new [Store];
    a service that raises returns no store, and its caller keeps the old
    one.  The [onupdate] default of [updated_at] is outside the model:
    the only timestamp writes are the insert default and the one in
    [mark_as_watched]. *)

Record Store : Type := mk_store {
  movies : list Movie.t;
  series : list Series.t;
  seasons : list Season.t;
  watch_entries : list WatchEntry.t
}.

Definition set_seasons (v : list Season.t) (db : Store) : Store :=
  mk_store (movies db) (series db) v (watch_entries db).

Definition set_watch_entries (v : list WatchEntry.t) (db : Store) : Store :=
  mk_store (movies db) (series db) (seasons db) v.

(** [Movie.query.get(id)] and [Series.query.get(id)]. *)
Definition get_movie (db : Store) (movie_id : Z) : option Movie.t :=
  find (fun m => Movie.id m =? movie_id)%Z (movies db).

Definition get_series (db : Store) (series_id : Z) : option Series.t :=
  find (fun s => Series.id s =? series_id)%Z (series db).

(** The relationship [Series.seasons]. *)
Definition series_seasons (db : Store) (s : Series.t) : list Season.t :=
  filter (fun x => Season.series_id x =? Series.id s)%Z (seasons db).

(** The relationship [WatchEntry.series_content], with the seasons of the
    series it loads. *)
Definition series_content (db : Store) (e : WatchEntry.t)
    : option (list Season.t) :=
  match WatchEntry.series_content_id e with
  | Some sid => option_map (series_seasons db) (get_series db sid)
  | None => None
  end.

(** [WatchEntry.query.filter_by(user_id=, content_type=, content_id=)]. *)
Definition entry_matches (user_id : Z) (content_type : string) (content_id : Z)
    (e : WatchEntry.t) : bool :=
  (WatchEntry.user_id e =? user_id)%Z
  && (WatchEntry.content_type e =? content_type)
  && (WatchEntry.content_id e =? content_id)%Z.

Definition query_entry (db : Store) (user_id : Z) (content_type : string)
    (content_id : Z) : option WatchEntry.t :=
  find (entry_matches user_id content_type content_id) (watch_entries db).

(** [Season.query.filter_by(series_id=, number=).first()]. *)
Definition query_season (db : Store) (series_id number : Z) : option Season.t :=
  find (fun s => (Season.series_id s =? series_id) && (Season.number s =? number))%Z
       (seasons db).

(** The next primary key of a table. *)
Definition fresh_id (ids : list Z) : Z := 1 + fold_left Z.max ids 0.

Definition entry_ids (db : Store) : list Z :=
  map (fun e => Py.or0 (WatchEntry.id e)) (watch_entries db).

Definition default_to (d : Z) (x : option Z) : option Z :=
  match x with
  | Some _ => x
  | None => Some d
  end.

(** [db.session.add(entry); db.session.commit()] for a new entry: the
    primary key and the column defaults of the attributes left unset. *)
Definition insert_entry (db : Store) (now : Z) (e : WatchEntry.t)
    : Store * WatchEntry.t :=
  let row :=
    WatchEntry.mk
      (Some (fresh_id (entry_ids db)))
      (WatchEntry.user_id e) (WatchEntry.content_type e)
      (WatchEntry.content_id e) (WatchEntry.status e)
      (default_to 1 (WatchEntry.current_season e))
      (default_to 1 (WatchEntry.current_episode e))
      (default_to 0 (WatchEntry.watched_episodes e))
      (default_to 0 (WatchEntry.total_episodes e))
      (default_to now (WatchEntry.created_at e))
      (default_to now (WatchEntry.updated_at e))
      (WatchEntry.movie_content_id e) (WatchEntry.series_content_id e) in
  (set_watch_entries (watch_entries db ++ [row]) db, row).

(** The commit of an entry mutated in place: the row the query returned
    is the first match, and it is that row which changes. *)
Fixpoint replace_first (p : WatchEntry.t -> bool) (e' : WatchEntry.t)
    (l : list WatchEntry.t) : list WatchEntry.t :=
  match l with
  | [] => []
  | e :: rest => if p e then e' :: rest else e :: replace_first p e' rest
  end.

Definition insert_season (db : Store) (series_id number episodes_count : Z)
    : Store * Season.t :=
  let row :=
    Season.mk (fresh_id (map Season.id (seasons db)))
              series_id number episodes_count in
  (set_seasons (seasons db ++ [row]) db, row).

(** [fk == id] on a nullable foreign key. *)
Definition refers_to (fk : option Z) (id : Z) : bool :=
  match fk with
  | Some v => (v =? id)%Z
  | None => false
  end.

(** [db.session.delete(movie); db.session.commit()]: the row goes, and
    with it, by the cascade declared on [Movie.watch_entries], the entries
    whose [movie_content_id] is its key. *)
Definition session_delete_movie (db : Store) (movie : Movie.t) : Store :=
  mk_store
    (filter (fun m => negb (Movie.id m =? Movie.id movie)%Z) (movies db))
    (series db) (seasons db)
    (filter (fun e => negb (refers_to (WatchEntry.movie_content_id e)
                                      (Movie.id movie)))
            (watch_entries db)).

(** The same for a series: the cascades declared on [Series.seasons] and
    [Series.watch_entries] take its seasons and the entries whose
    [series_content_id] is its key. *)
Definition session_delete_series (db : Store) (s : Series.t) : Store :=
  mk_store
    (movies db)
    (filter (fun x => negb (Series.id x =? Series.id s)%Z) (series db))
    (filter (fun x => negb (Season.series_id x =? Series.id s)%Z) (seasons db))
    (filter (fun e => negb (refers_to (WatchEntry.series_content_id e)
                                      (Series.id s)))
            (watch_entries db)).

(** [a.updated_at <= b.updated_at] as [ORDER BY] compares, a null
    timestamp being the lowest. *)
Definition updated_le (a b : WatchEntry.t) : bool :=
  match WatchEntry.updated_at a, WatchEntry.updated_at b with
  | None, _ => true
  | Some _, None => false
  | Some x, Some y => (x <=? y)%Z
  end.

(** [ORDER BY updated_at DESC]; rows with equal timestamps keep their
    table order. *)
Fixpoint insert_desc (e : WatchEntry.t) (l : list WatchEntry.t)
    : list WatchEntry.t :=
  match l with
  | [] => [e]
  | x :: rest => if updated_le x e then e :: l else x :: insert_desc e rest
  end.

Definition order_by_updated_desc (l : list WatchEntry.t) : list WatchEntry.t :=
  fold_right insert_desc [] l.

(* ================================================================== *)
(** ** HTTP responses *)

Inductive body : Type :=
| JsonEntry (d : WatchEntry.dict)
| JsonSeason (s : Season.t)
| JsonError (msg : string)
| Aborted (description : string).

Record Response : Type := mk_response { code : Z; content : body }.

Definition str_of_exn (e : Py.exn) : string :=
  match e with
  | Py.ValueError msg => msg
  | Py.TypeError msg => msg
  | Py.StopIteration => ""
  end.

(** What a delete route sends: no content, or an error object. *)
Inductive delete_body : Type :=
| NoContent
| DeleteError (msg : string).

(* ================================================================== *)
(** ** [src/api/progress.py] *)

(** The decoded JSON object of [PATCH /progress/series/<id>]: the four
    keys the service reads, each absent ([None]) or present, and the names
    of the other keys, which the service ignores.  A present numeric key
    holds a JSON integer, on which [int(...)] is the identity, and a
    present [status] holds a JSON string. *)
Module Payload.
Record t : Type := mk {
  watched_episodes : option Z;
  current_season : option Z;
  current_episode : option Z;
  status : option string;
  other_keys : list string
}.

Definition set_watched_episodes (v : option Z) (p : t) : t :=
  mk v (current_season p) (current_episode p) (status p) (other_keys p).

(** [not payload]: the dictionary has no key. *)
Definition is_empty (p : t) : bool :=
  match watched_episodes p, current_season p, current_episode p,
        status p, other_keys p with
  | None, None, None, None, [] => true
  | _, _, _, _, _ => false
  end.
End Payload.

(** [request.headers.get("X-User-Id", type=int)]: [None] when the header
    is absent or [int] raises [ValueError] on its value. *)
Definition headers_get_int (header : option string) : option Z :=
  match header with
  | Some v => Py.int_of_str v
  | None => None
  end.

(** The decorator [require_user_id] around a view [f].  [not user_id]
    holds for [None] and for [0]. *)
Definition require_user_id (f : Z -> Store -> Response * Store)
    (x_user_id : option string) (db : Store) : Response * Store :=
  let user_id := headers_get_int x_user_id in
  if negb (Py.truthy user_id) then
    (mk_response 401 (Aborted "Header X-User-Id es obligatorio."), db)
  else f (Py.or0 user_id) db.

Module ProgressService.

Definition list_watchlist (db : Store) (user_id : Z) : list WatchEntry.dict :=
  let entries :=
    order_by_updated_desc
      (filter (fun e => WatchEntry.user_id e =? user_id)%Z (watch_entries db)) in
  map WatchEntry.to_dict entries.

Definition add_movie (db : Store) (now user_id movie_id : Z)
    : Py.result (Store * WatchEntry.dict) :=
  match get_movie db movie_id with
  | None =>
      Py.Raise (Py.ValueError
        ("Pelicula con id " ++ Py.str_of_int movie_id ++ " no encontrada."))
  | Some _ =>
      match query_entry db user_id "movie" movie_id with
      | Some _ => Py.Raise (Py.ValueError "Pelicula ya esta en la watchlist.")
      | None =>
          let entry :=
            WatchEntry.init user_id "movie" movie_id "pending"
                            None None None None in
          let (db', row) := insert_entry db now entry in
          Py.Ok (db', WatchEntry.to_dict row)
      end
  end.

Definition add_series (db : Store) (now user_id series_id : Z)
    : Py.result (Store * WatchEntry.dict) :=
  match get_series db series_id with
  | None =>
      Py.Raise (Py.ValueError
        ("Serie con id " ++ Py.str_of_int series_id ++ " no encontrada."))
  | Some s =>
      match query_entry db user_id "series" series_id with
      | Some _ => Py.Raise (Py.ValueError "Serie ya esta en la watchlist.")
      | None =>
          let total_ep :=
            Py.sum (map Season.episodes_count (series_seasons db s)) in
          let entry :=
            WatchEntry.init user_id "series" series_id "pending"
                            (Some total_ep) (Some 0) (Some 1) (Some 1) in
          let (db', row) := insert_entry db now entry in
          Py.Ok (db', WatchEntry.to_dict row)
      end
  end.

(** The blocks of [update_series_progress], in source order. *)

(** [if "watched_episodes" in payload: ...] *)
Definition apply_watched_episodes (payload : Payload.t) (entry : WatchEntry.t)
    : WatchEntry.t :=
  match Payload.watched_episodes payload with
  | Some watched =>
      WatchEntry.set_watched_episodes
        (Some (Z.max 0 (Z.min watched (Py.or0 (WatchEntry.total_episodes entry)))))
        entry
  | None => entry
  end.

(** [if "current_season" in payload: ...] and
    [if "current_episode" in payload: ...] *)
Definition apply_cursor (payload : Payload.t) (entry : WatchEntry.t)
    : WatchEntry.t :=
  let entry :=
    match Payload.current_season payload with
    | Some v => WatchEntry.set_current_season (Some v) entry
    | None => entry
    end in
  match Payload.current_episode payload with
  | Some v => WatchEntry.set_current_episode (Some v) entry
  | None => entry
  end.

(** [if "status" in payload: ...] *)
Definition apply_status (db : Store) (now : Z) (payload : Payload.t)
    (entry : WatchEntry.t) : Py.result WatchEntry.t :=
  match Payload.status payload with
  | Some s =>
      if s =? "watched" then
        WatchEntry.mark_as_watched (series_content db entry) now entry
      else Py.Ok (WatchEntry.set_status s entry)
  | None => Py.Ok entry
  end.

(** [# Recalcular estado basado en episodios] *)
Definition recompute (db : Store) (now : Z) (entry : WatchEntry.t)
    : Py.result WatchEntry.t :=
  if negb (WatchEntry.status entry =? "watched") then
    full <-
      (if (Py.or0 (WatchEntry.total_episodes entry)
           <=? Py.or0 (WatchEntry.watched_episodes entry))%Z
       then Py.gt (WatchEntry.total_episodes entry) 0
       else Py.Ok false) ;;
    if full : bool then
      WatchEntry.mark_as_watched (series_content db entry) now entry
    else if (0 <? Py.or0 (WatchEntry.watched_episodes entry))%Z then
      Py.Ok (WatchEntry.set_status "watching" entry)
    else Py.Ok (WatchEntry.set_status "pending" entry)
  else Py.Ok entry.

(** The effect of the update on the entry the query returned. *)
Definition update_entry (db : Store) (now : Z) (payload : Payload.t)
    (entry : WatchEntry.t) : Py.result WatchEntry.t :=
  let entry := apply_watched_episodes payload entry in
  let entry := apply_cursor payload entry in
  entry <- apply_status db now payload entry ;;
  recompute db now entry.

Definition update_series_progress (db : Store) (now user_id series_id : Z)
    (payload : Payload.t) : Py.result (Store * WatchEntry.dict) :=
  match query_entry db user_id "series" series_id with
  | None => Py.Raise (Py.ValueError "Entrada no encontrada en la watchlist.")
  | Some entry =>
      entry <- update_entry db now payload entry ;;
      Py.Ok (set_watch_entries
               (replace_first (entry_matches user_id "series" series_id)
                              entry (watch_entries db)) db,
             WatchEntry.to_dict entry)
  end.

End ProgressService.

(** The views of the blueprint, before [require_user_id] is applied. *)

Definition add_movie_to_watchlist_view (now movie_id user_id : Z) (db : Store)
    : Response * Store :=
  match ProgressService.add_movie db now user_id movie_id with
  | Py.Ok (db', new_entry) => (mk_response 201 (JsonEntry new_entry), db')
  | Py.Raise (Py.ValueError ve) =>
      if Py.contains "no encontrada" ve
      then (mk_response 404 (JsonError ve), db)
      else (mk_response 409 (JsonError ve), db)
  | Py.Raise e => (mk_response 500 (JsonError ("Error interno: " ++ str_of_exn e)), db)
  end.

Definition add_series_to_watchlist_view (now series_id user_id : Z) (db : Store)
    : Response * Store :=
  match ProgressService.add_series db now user_id series_id with
  | Py.Ok (db', new_entry) => (mk_response 201 (JsonEntry new_entry), db')
  | Py.Raise (Py.ValueError ve) =>
      if Py.contains "no encontrada" ve
      then (mk_response 404 (JsonError ve), db)
      else (mk_response 409 (JsonError ve), db)
  | Py.Raise e => (mk_response 500 (JsonError ("Error interno: " ++ str_of_exn e)), db)
  end.

Definition update_series_progress_view (now series_id : Z) (payload : Payload.t)
    (user_id : Z) (db : Store) : Response * Store :=
  if Payload.is_empty payload then (mk_response 400 (JsonError "Payload vacio"), db)
  else
    match ProgressService.update_series_progress db now user_id series_id payload with
    | Py.Ok (db', updated_entry) => (mk_response 200 (JsonEntry updated_entry), db')
    | Py.Raise (Py.ValueError ve) => (mk_response 404 (JsonError ve), db)
    | Py.Raise e => (mk_response 500 (JsonError ("Error interno: " ++ str_of_exn e)), db)
    end.

(** The routes as registered: [@require_user_id] around each view. *)

Definition add_movie_to_watchlist (now movie_id : Z)
    : option string -> Store -> Response * Store :=
  require_user_id (add_movie_to_watchlist_view now movie_id).

Definition add_series_to_watchlist (now series_id : Z)
    : option string -> Store -> Response * Store :=
  require_user_id (add_series_to_watchlist_view now series_id).

Definition update_series_progress (now series_id : Z) (payload : Payload.t)
    : option string -> Store -> Response * Store :=
  require_user_id (update_series_progress_view now series_id payload).

(* ================================================================== *)
(** ** [src/api/movies.py]: deleting a movie *)

Module MovieService.

Definition delete_movie (db : Store) (movie_id : Z) : Py.result (Store * bool) :=
  match get_movie db movie_id with
  | None => Py.Ok (db, false)
  | Some movie => Py.Ok (session_delete_movie db movie, true)
  end.

End MovieService.

(** The route [DELETE /movies/<id>]. *)
Definition delete_movie (movie_id : Z) (db : Store)
    : (Z * delete_body) * Store :=
  match MovieService.delete_movie db movie_id with
  | Py.Ok (db', deleted) =>
      if negb deleted then ((404, DeleteError "Pelicula no encontrada"), db')
      else ((204, NoContent), db')
  | Py.Raise e =>
      if Py.contains "FOREIGN KEY constraint failed" (str_of_exn e) then
        ((409, DeleteError
                 "No se puede borrar la pelicula, esta en uso en una watchlist."),
         db)
      else ((500, DeleteError ("Error interno: " ++ str_of_exn e)), db)
  end.

(* ================================================================== *)
(** ** [src/api/series.py]: seasons *)

(** The decoded JSON object of [POST /series/<id>/seasons]: the two keys
    the service requires, each absent or holding a JSON integer. *)
Module SeasonPayload.
Record t : Type := mk { number : option Z; episodes_count : option Z }.
End SeasonPayload.

Module SeriesService.

Definition delete_series (db : Store) (series_id : Z)
    : Py.result (Store * bool) :=
  match get_series db series_id with
  | None => Py.Ok (db, false)
  | Some s => Py.Ok (session_delete_series db s, true)
  end.

Definition add_season (db : Store) (series_id : Z) (payload : SeasonPayload.t)
    : Py.result (Store * Season.t) :=
  match get_series db series_id with
  | None =>
      Py.Raise (Py.ValueError
        ("La serie con id " ++ Py.str_of_int series_id ++ " no existe."))
  | Some _ =>
      match SeasonPayload.number payload, SeasonPayload.episodes_count payload with
      | Some number, Some episodes_count =>
          match query_season db series_id number with
          | Some _ =>
              Py.Raise (Py.ValueError
                ("La temporada " ++ Py.str_of_int number
                 ++ " ya existe para esta serie."))
          | None =>
              let (db', new_season) :=
                insert_season db series_id number episodes_count in
              Py.Ok (db', Season.to_dict new_season)
          end
      | _, _ =>
          Py.Raise (Py.ValueError
            "Los campos 'number' y 'episodes_count' son obligatorios.")
      end
  end.

End SeriesService.

(** The route [POST /series/<id>/seasons]. *)
Definition add_season (series_id : Z) (payload : SeasonPayload.t) (db : Store)
    : Response * Store :=
  match SeriesService.add_season db series_id payload with
  | Py.Ok (db', new_season) => (mk_response 201 (JsonSeason new_season), db')
  | Py.Raise (Py.ValueError ve) =>
      if Py.contains "no existe" ve
      then (mk_response 404 (JsonError ve), db)
      else (mk_response 400 (JsonError ve), db)
  | Py.Raise e => (mk_response 500 (JsonError ("Error interno: " ++ str_of_exn e)), db)
  end.

(** The route [DELETE /series/<id>]. *)
Definition delete_series (series_id : Z) (db : Store)
    : (Z * delete_body) * Store :=
  match SeriesService.delete_series db series_id with
  | Py.Ok (db', deleted) =>
      if negb deleted then ((404, DeleteError "Serie no encontrada"), db')
      else ((204, NoContent), db')
  | Py.Raise e =>
      if Py.contains "FOREIGN KEY constraint failed" (str_of_exn e) then
        ((409, DeleteError
                 "No se puede borrar la serie, esta en uso en una watchlist."),
         db)
      else ((500, DeleteError ("Error interno: " ++ str_of_exn e)), db)
  end.

(* ================================================================== *)
(** ** Vocabulary of the statements *)

(** The season on which the terminal transition leaves the cursor: the
    first row, in relationship order, that carries the highest number. *)
Definition last_season_row (seasons : list Season.t) : option Season.t :=
  match seasons with
  | [] => None
  | s0 :: rest =>
      find (fun s => Season.number s
                     =? Py.max_of (Season.number s0) (map Season.number rest))%Z
           seasons
  end.

(** The fields [mark_as_watched] leaves behind, timestamp apart, as a total
    function; [mark_as_watched_eq] relates the two. *)
Definition terminal (series_content : option (list Season.t))
    (self : WatchEntry.t) : WatchEntry.t :=
  let self := WatchEntry.set_status "watched" self in
  if WatchEntry.content_type self =? "movie" then
    WatchEntry.set_watched_episodes (Some 1) self
  else if (WatchEntry.content_type self =? "series")
          && Py.truthy (WatchEntry.total_episodes self) then
    let self :=
      WatchEntry.set_watched_episodes (WatchEntry.total_episodes self) self in
    match series_content with
    | Some seasons =>
        match last_season_row seasons with
        | Some s =>
            WatchEntry.set_current_episode (Some (Season.episodes_count s))
              (WatchEntry.set_current_season (Some (Season.number s)) self)
        | None => self
        end
    | None => self
    end
  else self.

(** The attributes no block of the update writes. *)
Definition same_keys (e e' : WatchEntry.t) : Prop :=
  WatchEntry.id e' = WatchEntry.id e
  /\ WatchEntry.user_id e' = WatchEntry.user_id e
  /\ WatchEntry.content_type e' = WatchEntry.content_type e
  /\ WatchEntry.content_id e' = WatchEntry.content_id e
  /\ WatchEntry.total_episodes e' = WatchEntry.total_episodes e
  /\ WatchEntry.series_content_id e' = WatchEntry.series_content_id e.

(** The season row the terminal transition reads, if any. *)
Definition cursor_row (sc : option (list Season.t)) : option Season.t :=
  match sc with
  | Some l => last_season_row l
  | None => None
  end.

(** An entry on which recomputation does not reach [watched]: the watched
    counter is below the total, or the total is not positive; with the
    total unset, only a negative counter avoids the failing comparison. *)
Definition falls_short (e : WatchEntry.t) : Prop :=
  (exists t, WatchEntry.total_episodes e = Some t
             /\ ~ (t <= Py.or0 (WatchEntry.watched_episodes e) /\ 0 < t))
  \/ (WatchEntry.total_episodes e = None
      /\ Py.or0 (WatchEntry.watched_episodes e) < 0).

(** The status recomputation gives such an entry. *)
Definition partial_status (e : WatchEntry.t) : string :=
  if (0 <? Py.or0 (WatchEntry.watched_episodes e))%Z
  then "watching" else "pending".

(** A character of a rendered numeral: a digit. *)
Definition is_digit (c : ascii) : Prop :=
  exists d, Py.digit c = Some d.

(** What the idempotence property compares. *)
Definition progress_state (e : WatchEntry.t)
    : string * option Z * option Z * option Z :=
  (WatchEntry.status e, WatchEntry.watched_episodes e,
   WatchEntry.current_season e, WatchEntry.current_episode e).

(** Stores reachable through the watchlist operations.  The catalog
    (movies, series, seasons) is arbitrary at the start and may change
    between two operations, as long as the entries stay. *)
Inductive reachable : Store -> Prop :=
| reach_start : forall db, watch_entries db = [] -> reachable db
| reach_catalog : forall db db',
    reachable db -> watch_entries db' = watch_entries db -> reachable db'
| reach_add_movie : forall db now user_id movie_id db' d,
    reachable db ->
    ProgressService.add_movie db now user_id movie_id = Py.Ok (db', d) ->
    reachable db'
| reach_add_series : forall db now user_id series_id db' d,
    reachable db ->
    ProgressService.add_series db now user_id series_id = Py.Ok (db', d) ->
    reachable db'
| reach_update : forall db now user_id series_id payload db' d,
    reachable db ->
    ProgressService.update_series_progress db now user_id series_id payload
      = Py.Ok (db', d) ->
    reachable db'.


(** The columns of the unique constraint [uq_user_content]. *)
Definition entry_key (e : WatchEntry.t) : Z * string * Z :=
  (WatchEntry.user_id e, WatchEntry.content_type e, WatchEntry.content_id e).

(** The columns of the unique constraint [uq_series_season_number]. *)
Definition season_key (s : Season.t) : Z * Z :=
  (Season.series_id s, Season.number s).

(** An entry is linked when, of its two foreign keys, exactly the one of
    its content type is set, and holds its [content_id], as [__init__]
    sets them. *)
Definition linked (e : WatchEntry.t) : Prop :=
  WatchEntry.movie_content_id e
  = (if WatchEntry.content_type e =? "movie"
     then Some (WatchEntry.content_id e) else None)
  /\ WatchEntry.series_content_id e
     = (if WatchEntry.content_type e =? "series"
        then Some (WatchEntry.content_id e) else None).

(** Sample data: the catalog of the scenarios (one movie, one series with
    seasons (1, 10) and (2, 8)), and the store after user 7 has added the
    series to the watchlist at time 100. *)
Definition sample_catalog : Store :=
  mk_store [Movie.mk 1 "Alien"] [Series.mk 1 "Dark" 2]
           [Season.mk 1 1 1 10; Season.mk 2 1 2 8] [].

Definition sample_db : Store :=
  snd (add_series_to_watchlist 100 1 (Some "7") sample_catalog).

Definition sample_entry : WatchEntry.t :=
  WatchEntry.mk (Some 1) 7 "series" 1 "pending" (Some 1) (Some 1)
                (Some 0) (Some 18) (Some 100) (Some 100) None (Some 1).


Definition long_entry : WatchEntry.t :=
  WatchEntry.mk (Some 1) 7 "series" 1 "watching" (Some 1) (Some 1)
                (Some 99999) (Some 100000) (Some 100) (Some 100) None (Some 1).

(** The sample store with the entry's [total_episodes] left unset, which
    the nullable column admits. *)
Definition unset_total_db : Store :=
  set_watch_entries [WatchEntry.set_total_episodes None sample_entry]
                    sample_catalog.

(* ================================================================== *)
(** ** Python fragments: facts *)

Example int_of_str_samples :
  map Py.int_of_str ["42"; "-5"; " 7 "; "1_000"; "+3"; "007"; "0"; "-0";
                     "abc"; ""; "4 2"; "1__0"; "_1"; "5_"; "-"; "+-5"; "- 5"]
  = [Some 42; Some (-5); Some 7; Some 1000; Some 3; Some 7; Some 0; Some 0;
     None; None; None; None; None; None; None; None; None].
Proof. reflexivity. Qed.

Lemma fold_max_ge_init (xs : list Z) (x : Z) : x <= fold_left Z.max xs x.
Proof.
  revert x; induction xs as [|y ys IH]; intros x; simpl; [lia|].
  specialize (IH (Z.max x y)); lia.
Qed.

Lemma fold_max_ge (xs : list Z) (x y : Z) :
  In y xs -> y <= fold_left Z.max xs x.
Proof.
  revert x; induction xs as [|z zs IH]; intros x [].
  - subst z; simpl. pose proof (fold_max_ge_init zs (Z.max x y)); lia.
  - simpl. now apply IH.
Qed.

Lemma fold_max_in (xs : list Z) (x : Z) :
  fold_left Z.max xs x = x \/ In (fold_left Z.max xs x) xs.
Proof.
  revert x; induction xs as [|z zs IH]; intros x; simpl; [now left|].
  destruct (IH (Z.max x z)) as [E|I]; [|now right; right].
  rewrite E. destruct (Z.max_spec x z) as [[_ ->]|[_ ->]]; auto.
Qed.

Lemma max_of_upper (x : Z) (xs : list Z) (y : Z) :
  In y (x :: xs) -> y <= Py.max_of x xs.
Proof.
  unfold Py.max_of; intros [<-|I].
  - apply fold_max_ge_init.
  - now apply fold_max_ge.
Qed.

Lemma max_of_in (x : Z) (xs : list Z) : In (Py.max_of x xs) (x :: xs).
Proof.
  unfold Py.max_of. destruct (fold_max_in xs x) as [->|I]; [now left|now right].
Qed.

(** [next(...)] in [mark_as_watched] finds a row: the highest number is
    the number of some season. *)
Lemma last_season_row_some (seasons : list Season.t) :
  seasons <> [] ->
  exists s,
    last_season_row seasons = Some s
    /\ In s seasons
    /\ (forall s', In s' seasons -> Season.number s' <= Season.number s).
Proof.
  destruct seasons as [|s0 rest]; [congruence|intros _].
  unfold last_season_row.
  set (m := Py.max_of (Season.number s0) (map Season.number rest)).
  destruct (find (fun s => Season.number s =? m)%Z (s0 :: rest)) as [s|] eqn:F.
  - apply find_some in F as [I E]. apply Z.eqb_eq in E.
    exists s; repeat split; auto.
    intros s' I'. rewrite E. apply max_of_upper.
    change (In (Season.number s') (map Season.number (s0 :: rest))).
    now apply in_map.
  - exfalso.
    pose proof (max_of_in (Season.number s0) (map Season.number rest)) as I.
    change (In m (map Season.number (s0 :: rest))) in I.
    apply in_map_iff in I as [s [E I]].
    apply (find_none _ _ F) in I. apply Z.eqb_neq in I. congruence.
Qed.

Lemma last_season_row_nil : last_season_row [] = None.
Proof. reflexivity. Qed.

(** [mark_as_watched] never raises, and returns [terminal] with the
    timestamp set. *)
Lemma mark_as_watched_eq (sc : option (list Season.t)) (now : Z) (e : WatchEntry.t) :
  WatchEntry.mark_as_watched sc now e
  = Py.Ok (WatchEntry.set_updated_at (Some now) (terminal sc e)).
Proof.
  unfold WatchEntry.mark_as_watched, terminal; cbn [WatchEntry.content_type WatchEntry.set_status WatchEntry.total_episodes].
  destruct (WatchEntry.content_type e =? "movie"); [reflexivity|].
  destruct ((WatchEntry.content_type e =? "series")
            && Py.truthy (WatchEntry.total_episodes e)); [|reflexivity].
  destruct sc as [[|s0 rest]|]; try reflexivity.
  destruct (last_season_row_some (s0 :: rest)) as (s & F & _ & _); [congruence|].
  rewrite F. unfold last_season_row in F. cbv zeta. rewrite F.
  pose proof (proj2 (find_some _ _ F)) as E. apply Z.eqb_eq in E.
  cbn [Py.bind]. now rewrite <- E.
Qed.

(* ================================================================== *)
(** ** The store: queries after a commit *)

Lemma find_replace_first (p : WatchEntry.t -> bool) (e e' : WatchEntry.t)
    (l : list WatchEntry.t) :
  find p l = Some e -> p e' = true -> find p (replace_first p e' l) = Some e'.
Proof.
  intros F P. induction l as [|x xs IH]; simpl in *; [discriminate|].
  destruct (p x) eqn:Px; simpl.
  - now rewrite P.
  - rewrite Px. now apply IH.
Qed.

Lemma query_entry_matches (db : Store) (u : Z) (ct : string) (cid : Z)
    (e : WatchEntry.t) :
  query_entry db u ct cid = Some e ->
  WatchEntry.user_id e = u /\ WatchEntry.content_type e = ct
  /\ WatchEntry.content_id e = cid /\ In e (watch_entries db).
Proof.
  unfold query_entry, entry_matches. intros F.
  apply find_some in F as [I M].
  apply andb_prop in M as [M M3]. apply andb_prop in M as [M1 M2].
  apply Z.eqb_eq in M1, M3. apply String.eqb_eq in M2. auto.
Qed.

Lemma entry_matches_by_keys (u : Z) (ct : string) (cid : Z) (e e' : WatchEntry.t) :
  WatchEntry.user_id e' = WatchEntry.user_id e ->
  WatchEntry.content_type e' = WatchEntry.content_type e ->
  WatchEntry.content_id e' = WatchEntry.content_id e ->
  entry_matches u ct cid e' = entry_matches u ct cid e.
Proof. unfold entry_matches. now intros -> -> ->. Qed.

Lemma series_content_by_key (db : Store) (e e' : WatchEntry.t) :
  WatchEntry.series_content_id e' = WatchEntry.series_content_id e ->
  series_content db e' = series_content db e.
Proof. unfold series_content. now intros ->. Qed.

Lemma series_content_same_catalog (db db' : Store) (e : WatchEntry.t) :
  series db' = series db -> seasons db' = seasons db ->
  series_content db' e = series_content db e.
Proof.
  unfold series_content, get_series, series_seasons. now intros -> ->.
Qed.

(* ================================================================== *)
(** ** The terminal transition and the blocks of the update *)

Lemma same_keys_refl (e : WatchEntry.t) : same_keys e e.
Proof. repeat split. Qed.

Lemma same_keys_trans (e1 e2 e3 : WatchEntry.t) :
  same_keys e1 e2 -> same_keys e2 e3 -> same_keys e1 e3.
Proof.
  unfold same_keys. intros (A1 & A2 & A3 & A4 & A5 & A6) (B1 & B2 & B3 & B4 & B5 & B6).
  repeat split; congruence.
Qed.

Lemma terminal_keys (sc : option (list Season.t)) (e : WatchEntry.t) :
  same_keys e (terminal sc e).
Proof.
  unfold terminal. cbn [WatchEntry.content_type WatchEntry.set_status WatchEntry.total_episodes].
  destruct (WatchEntry.content_type e =? "movie"); [repeat split|].
  destruct ((WatchEntry.content_type e =? "series")
            && Py.truthy (WatchEntry.total_episodes e)); [|repeat split].
  destruct sc as [l|]; [destruct (last_season_row l)|]; repeat split.
Qed.

Lemma terminal_status (sc : option (list Season.t)) (e : WatchEntry.t) :
  WatchEntry.status (terminal sc e) = "watched".
Proof.
  unfold terminal. cbn [WatchEntry.content_type WatchEntry.set_status WatchEntry.total_episodes].
  destruct (WatchEntry.content_type e =? "movie"); [reflexivity|].
  destruct ((WatchEntry.content_type e =? "series")
            && Py.truthy (WatchEntry.total_episodes e)); [|reflexivity].
  destruct sc as [l|]; [destruct (last_season_row l)|]; reflexivity.
Qed.

Lemma apply_watched_episodes_keys (p : Payload.t) (e : WatchEntry.t) :
  same_keys e (ProgressService.apply_watched_episodes p e).
Proof.
  unfold ProgressService.apply_watched_episodes.
  destruct (Payload.watched_episodes p); repeat split.
Qed.

Lemma apply_cursor_keys (p : Payload.t) (e : WatchEntry.t) :
  same_keys e (ProgressService.apply_cursor p e).
Proof.
  unfold ProgressService.apply_cursor.
  destruct (Payload.current_season p), (Payload.current_episode p); repeat split.
Qed.

Lemma apply_status_keys (db : Store) (now : Z) (p : Payload.t) (e e' : WatchEntry.t) :
  ProgressService.apply_status db now p e = Py.Ok e' -> same_keys e e'.
Proof.
  unfold ProgressService.apply_status.
  destruct (Payload.status p) as [s|].
  - destruct (s =? "watched").
    + rewrite mark_as_watched_eq. intros [= <-].
      eapply same_keys_trans; [apply terminal_keys|repeat split].
    + intros [= <-]. repeat split.
  - intros [= <-]. apply same_keys_refl.
Qed.

Lemma recompute_keys (db : Store) (now : Z) (e e' : WatchEntry.t) :
  ProgressService.recompute db now e = Py.Ok e' -> same_keys e e'.
Proof.
  unfold ProgressService.recompute.
  destruct (negb (WatchEntry.status e =? "watched")).
  - destruct (_ <=? _)%Z; cbn [Py.bind].
    + destruct (WatchEntry.total_episodes e) as [t|] eqn:T; cbn [Py.gt Py.bind];
        [|discriminate].
      destruct (0 <? t)%Z.
      * rewrite mark_as_watched_eq. intros [= <-].
        eapply same_keys_trans; [apply terminal_keys|repeat split].
      * destruct (0 <? _)%Z; intros [= <-]; repeat split; cbn; auto.
    + destruct (0 <? _)%Z; intros [= <-]; repeat split.
  - intros [= <-]. apply same_keys_refl.
Qed.

Lemma update_entry_keys (db : Store) (now : Z) (p : Payload.t) (e e' : WatchEntry.t) :
  ProgressService.update_entry db now p e = Py.Ok e' -> same_keys e e'.
Proof.
  unfold ProgressService.update_entry.
  destruct (ProgressService.apply_status _ _ _ _) as [e1|] eqn:S; cbn [Py.bind];
    [|discriminate].
  intros R.
  eapply same_keys_trans; [apply apply_watched_episodes_keys|].
  eapply same_keys_trans; [apply apply_cursor_keys|].
  eapply same_keys_trans; [eapply apply_status_keys, S|].
  eapply recompute_keys, R.
Qed.

(** A successful update commits the entry, and the same query finds it. *)
Lemma update_series_progress_commit (db : Store) (now u sid : Z) (p : Payload.t)
    (e e' : WatchEntry.t) :
  query_entry db u "series" sid = Some e ->
  ProgressService.update_entry db now p e = Py.Ok e' ->
  exists db',
    ProgressService.update_series_progress db now u sid p
    = Py.Ok (db', WatchEntry.to_dict e')
    /\ query_entry db' u "series" sid = Some e'
    /\ movies db' = movies db /\ series db' = series db
    /\ seasons db' = seasons db
    /\ watch_entries db'
       = replace_first (entry_matches u "series" sid) e' (watch_entries db).
Proof.
  intros Q U. unfold ProgressService.update_series_progress. rewrite Q, U.
  cbn [Py.bind]. eexists; split; [reflexivity|].
  split; [|now repeat split].
  unfold query_entry in *. cbn [watch_entries set_watch_entries].
  apply find_replace_first with (e := e); [exact Q|].
  destruct (update_entry_keys _ _ _ _ _ U) as (_ & K1 & K2 & K3 & _).
  rewrite (entry_matches_by_keys _ _ _ e e') by assumption.
  now apply find_some in Q.
Qed.

Lemma update_entry_status_watched (db : Store) (now : Z) (p : Payload.t)
    (e : WatchEntry.t) :
  Payload.status p = Some "watched" ->
  ProgressService.update_entry db now p e
  = Py.Ok (WatchEntry.set_updated_at (Some now)
             (terminal (series_content db e)
                (ProgressService.apply_cursor p
                   (ProgressService.apply_watched_episodes p e)))).
Proof.
  intros S. unfold ProgressService.update_entry, ProgressService.apply_status.
  rewrite S. cbn [String.eqb Ascii.eqb Bool.eqb]. rewrite mark_as_watched_eq.
  cbn [Py.bind]. unfold ProgressService.recompute.
  cbn [WatchEntry.status WatchEntry.set_updated_at]. rewrite terminal_status.
  cbn [String.eqb Ascii.eqb Bool.eqb negb].
  rewrite (series_content_by_key db e); [reflexivity|].
  destruct (apply_cursor_keys p (ProgressService.apply_watched_episodes p e))
    as (_ & _ & _ & _ & _ & ->).
  now destruct (apply_watched_episodes_keys p e) as (_ & _ & _ & _ & _ & ->).
Qed.

(** The terminal transition on a series entry whose total is non-zero. *)
Lemma terminal_series (sc : option (list Season.t)) (e : WatchEntry.t) :
  WatchEntry.content_type e = "series" ->
  Py.truthy (WatchEntry.total_episodes e) = true ->
  WatchEntry.watched_episodes (terminal sc e) = WatchEntry.total_episodes e
  /\ (forall seasons, sc = Some seasons -> seasons <> [] ->
      exists s,
        In s seasons
        /\ (forall s', In s' seasons -> Season.number s' <= Season.number s)
        /\ WatchEntry.current_season (terminal sc e) = Some (Season.number s)
        /\ WatchEntry.current_episode (terminal sc e)
           = Some (Season.episodes_count s)).
Proof.
  intros CT T. unfold terminal.
  cbn [WatchEntry.content_type WatchEntry.set_status WatchEntry.total_episodes].
  rewrite CT, T. cbn [String.eqb Ascii.eqb Bool.eqb andb].
  split.
  - destruct sc as [l|]; [destruct (last_season_row l)|]; reflexivity.
  - intros l -> NE.
    destruct (last_season_row_some l NE) as (s & F & I & M).
    rewrite F. exists s. repeat split; auto.
Qed.

(** The terminal transition when the total is zero or unset: only the
    status changes. *)
Lemma terminal_series_unknown_total (sc : option (list Season.t)) (e : WatchEntry.t) :
  WatchEntry.content_type e = "series" ->
  Py.truthy (WatchEntry.total_episodes e) = false ->
  terminal sc e = WatchEntry.set_status "watched" e.
Proof.
  intros CT T. unfold terminal.
  cbn [WatchEntry.content_type WatchEntry.set_status WatchEntry.total_episodes].
  rewrite CT, T. reflexivity.
Qed.

(* ================================================================== *)
(** ** The explicit terminal transition *)

(** C1.  On a series entry whose [total_episodes] is positive, a progress
    update whose payload has [status == "watched"] succeeds and commits an
    entry with status [watched] and [watched_episodes = total_episodes],
    whatever [watched_episodes] the payload carries; when the series has
    seasons, the cursor is on a season of highest number, at its
    [episodes_count]. *)
Theorem update_status_watched_terminal
    (db : Store) (now user_id series_id total : Z) (payload : Payload.t)
    (entry : WatchEntry.t) :
  query_entry db user_id "series" series_id = Some entry ->
  WatchEntry.total_episodes entry = Some total ->
  0 < total ->
  Payload.status payload = Some "watched" ->
  exists db' entry',
    ProgressService.update_series_progress db now user_id series_id payload
    = Py.Ok (db', WatchEntry.to_dict entry')
    /\ query_entry db' user_id "series" series_id = Some entry'
    /\ WatchEntry.status entry' = "watched"
    /\ WatchEntry.watched_episodes entry' = Some total
    /\ WatchEntry.updated_at entry' = Some now
    /\ (forall seasons,
          series_content db entry = Some seasons -> seasons <> [] ->
          exists s,
            In s seasons
            /\ (forall s', In s' seasons -> Season.number s' <= Season.number s)
            /\ WatchEntry.current_season entry' = Some (Season.number s)
            /\ WatchEntry.current_episode entry' = Some (Season.episodes_count s)).
Proof.
  intros Q T Tpos S.
  pose proof (update_entry_status_watched db now payload entry S) as U.
  destruct (update_series_progress_commit _ now _ _ payload _ _ Q U)
    as (db' & Run & Q' & _).
  set (e1 := ProgressService.apply_cursor payload
               (ProgressService.apply_watched_episodes payload entry)) in *.
  assert (K : same_keys entry e1).
  { eapply same_keys_trans;
      [apply apply_watched_episodes_keys|apply apply_cursor_keys]. }
  destruct K as (_ & _ & CT & _ & TE & _).
  destruct (query_entry_matches _ _ _ _ _ Q) as (_ & CT0 & _).
  destruct (terminal_series (series_content db entry) e1) as [W C].
  { congruence. }
  { rewrite TE, T. cbn. apply negb_true_iff, Z.eqb_neq. lia. }
  exists db'. eexists. split; [exact Run|]. split; [exact Q'|].
  cbn [WatchEntry.status WatchEntry.watched_episodes WatchEntry.updated_at
       WatchEntry.current_season WatchEntry.current_episode
       WatchEntry.set_updated_at].
  split; [apply terminal_status|].
  split; [congruence|]. split; [reflexivity|]. exact C.
Qed.

Lemma update_status_watched_terminal_witness :
  exists db' entry',
    ProgressService.update_series_progress sample_db 101 7 1
      (Payload.mk (Some 5) (Some 1) None (Some "watched") [])
    = Py.Ok (db', WatchEntry.to_dict entry')
    /\ query_entry db' 7 "series" 1 = Some entry'
    /\ WatchEntry.status entry' = "watched"
    /\ WatchEntry.watched_episodes entry' = Some 18
    /\ WatchEntry.updated_at entry' = Some 101
    /\ (forall seasons,
          series_content sample_db sample_entry = Some seasons -> seasons <> [] ->
          exists s,
            In s seasons
            /\ (forall s', In s' seasons -> Season.number s' <= Season.number s)
            /\ WatchEntry.current_season entry' = Some (Season.number s)
            /\ WatchEntry.current_episode entry' = Some (Season.episodes_count s)).
Proof.
  apply (update_status_watched_terminal sample_db 101 7 1 18 _ sample_entry);
    [reflexivity|reflexivity|lia|reflexivity].
Defined.

(** The scenario of the specification: seasons (1, 10) and (2, 8), then
    [{status: "watched"}] with a stale [watched_episodes]. *)
Example scenario_status_watched :
  update_series_progress 101 1
    (Payload.mk (Some 5) (Some 1) None (Some "watched") []) (Some "7") sample_db
  = (mk_response 200
       (JsonEntry
          (WatchEntry.mk_dict (Some 1) 7 "series" 1 "watched" (Some 2) (Some 8)
                              (Some 18) (Some 18) 10000 (Some 101))),
     set_watch_entries
       [WatchEntry.mk (Some 1) 7 "series" 1 "watched" (Some 2) (Some 8)
                      (Some 18) (Some 18) (Some 100) (Some 101) None (Some 1)]
       sample_catalog).
Proof. reflexivity. Qed.

(** C10.  On a series entry whose [total_episodes] is 0 or unset, the
    update [{status: "watched"}] succeeds, sets the status to [watched] and
    the timestamp to the clock reading, leaves [watched_episodes],
    [current_season] and [current_episode] as they were, whatever seasons
    the series has, and [percentage_watched] of the result is 100.0. *)
Theorem update_status_watched_unknown_total
    (db : Store) (now user_id series_id : Z) (other : list string)
    (entry : WatchEntry.t) :
  query_entry db user_id "series" series_id = Some entry ->
  WatchEntry.total_episodes entry = None
  \/ WatchEntry.total_episodes entry = Some 0 ->
  exists db' entry',
    ProgressService.update_series_progress db now user_id series_id
      (Payload.mk None None None (Some "watched") other)
    = Py.Ok (db', WatchEntry.to_dict entry')
    /\ query_entry db' user_id "series" series_id = Some entry'
    /\ WatchEntry.status entry' = "watched"
    /\ WatchEntry.updated_at entry' = Some now
    /\ WatchEntry.watched_episodes entry' = WatchEntry.watched_episodes entry
    /\ WatchEntry.current_season entry' = WatchEntry.current_season entry
    /\ WatchEntry.current_episode entry' = WatchEntry.current_episode entry
    /\ WatchEntry.total_episodes entry' = WatchEntry.total_episodes entry
    /\ WatchEntry.percentage_watched entry' = 10000.
Proof.
  intros Q T.
  set (payload := Payload.mk None None None (Some "watched") other).
  pose proof (update_entry_status_watched db now payload entry eq_refl) as U.
  destruct (update_series_progress_commit _ now _ _ payload _ _ Q U)
    as (db' & Run & Q' & _).
  destruct (query_entry_matches _ _ _ _ _ Q) as (_ & CT & _).
  change (ProgressService.apply_cursor payload
            (ProgressService.apply_watched_episodes payload entry))
    with entry in *.
  rewrite terminal_series_unknown_total in Run, Q';
    [|exact CT|now destruct T as [-> | ->]| exact CT |now destruct T as [-> | ->]].
  exists db'. eexists. split; [exact Run|]. split; [exact Q'|].
  repeat split.
Qed.

Lemma update_status_watched_unknown_total_witness :
  exists db' entry',
    ProgressService.update_series_progress
      (set_watch_entries [WatchEntry.set_total_episodes (Some 0) sample_entry]
                         sample_catalog)
      101 7 1 (Payload.mk None None None (Some "watched") [])
    = Py.Ok (db', WatchEntry.to_dict entry')
    /\ query_entry db' 7 "series" 1 = Some entry'
    /\ WatchEntry.status entry' = "watched"
    /\ WatchEntry.updated_at entry' = Some 101
    /\ WatchEntry.watched_episodes entry' = Some 0
    /\ WatchEntry.current_season entry' = Some 1
    /\ WatchEntry.current_episode entry' = Some 1
    /\ WatchEntry.total_episodes entry' = Some 0
    /\ WatchEntry.percentage_watched entry' = 10000.
Proof.
  apply (update_status_watched_unknown_total
           (set_watch_entries
              [WatchEntry.set_total_episodes (Some 0) sample_entry] sample_catalog)
           101 7 1 [] (WatchEntry.set_total_episodes (Some 0) sample_entry));
    [reflexivity|right; reflexivity].
Defined.

(* ================================================================== *)
(** ** Clamping of [watched_episodes] *)





(** The clamping scenarios: above the total, below zero, in range. *)
Example scenario_clamp :
  map (fun w =>
         WatchEntry.watched_episodes
           (ProgressService.apply_watched_episodes
              (Payload.mk (Some w) None None None []) sample_entry))
      [25; -3; 5; 18; 0]
  = [Some 18; Some 0; Some 5; Some 18; Some 0].
Proof. reflexivity. Qed.

(* ================================================================== *)
(** ** Recomputation of the status *)

(** With [total_episodes] set, recomputation is skipped on a watched
    entry and otherwise picks the status from the two counters. *)
Lemma recompute_total_set (db : Store) (now t : Z) (e : WatchEntry.t) :
  WatchEntry.total_episodes e = Some t ->
  let w := Py.or0 (WatchEntry.watched_episodes e) in
  (WatchEntry.status e = "watched" ->
   ProgressService.recompute db now e = Py.Ok e)
  /\ (WatchEntry.status e <> "watched" ->
      (t <= w /\ 0 < t ->
       ProgressService.recompute db now e
       = WatchEntry.mark_as_watched (series_content db e) now e)
      /\ (~ (t <= w /\ 0 < t) -> 0 < w ->
          ProgressService.recompute db now e
          = Py.Ok (WatchEntry.set_status "watching" e))
      /\ (~ (t <= w /\ 0 < t) -> w <= 0 ->
          ProgressService.recompute db now e
          = Py.Ok (WatchEntry.set_status "pending" e))).
Proof.
  intros T w. unfold ProgressService.recompute. rewrite T.
  cbn [Py.or0 Py.gt]. fold w. split.
  - intros ->. reflexivity.
  - intros NW. apply String.eqb_neq in NW. rewrite NW. cbn [negb].
    destruct (Z.leb_spec t w), (Z.ltb_spec 0 t), (Z.ltb_spec 0 w);
      cbn [Py.bind]; repeat split; intros; try reflexivity; lia.
Qed.

(** With [total_episodes] unset, recomputation raises as soon as it has
    to compare the total with 0. *)
Lemma recompute_total_unset (db : Store) (now : Z) (e : WatchEntry.t) :
  WatchEntry.total_episodes e = None ->
  WatchEntry.status e <> "watched" ->
  0 <= Py.or0 (WatchEntry.watched_episodes e) ->
  exists msg, ProgressService.recompute db now e = Py.Raise (Py.TypeError msg).
Proof.
  intros T NW W. unfold ProgressService.recompute. rewrite T.
  apply String.eqb_neq in NW. rewrite NW. cbn [negb Py.or0 Py.gt].
  destruct (Z.leb_spec 0 (Py.or0 (WatchEntry.watched_episodes e))); [|lia].
  cbn [Py.bind]. eauto.
Qed.

(** C2 (the defect).  On the entry of [unset_total_db], whose
    [total_episodes] is unset, the update [{current_season: 2}] reaches
    recomputation with status [pending]; the comparison
    [entry.total_episodes > 0] raises [TypeError], the route answers 500
    and nothing is committed. *)
Theorem recompute_unset_total_fails :
  update_series_progress 101 1 (Payload.mk None (Some 2) None None [])
                         (Some "7") unset_total_db
  = (mk_response 500
       (JsonError
          "Error interno: '>' not supported between instances of 'NoneType' and 'int'"),
     unset_total_db).
Proof. reflexivity. Qed.

(** The scenarios of the specification on the sample store. *)
Example scenario_watched_episodes_18 :
  fst (update_series_progress 101 1 (Payload.mk (Some 18) None None None [])
                              (Some "7") sample_db)
  = mk_response 200
      (JsonEntry
         (WatchEntry.mk_dict (Some 1) 7 "series" 1 "watched" (Some 2) (Some 8)
                             (Some 18) (Some 18) 10000 (Some 101))).
Proof. reflexivity. Qed.

Example scenario_watched_episodes_5 :
  match ProgressService.update_series_progress sample_db 101 7 1
          (Payload.mk (Some 5) None None None []) with
  | Py.Ok (_, d) =>
      (WatchEntry.d_status d, WatchEntry.d_watched_episodes d,
       WatchEntry.d_percentage_watched d)
      = ("watching", Some 5, 2778)
  | Py.Raise _ => False
  end.
Proof. reflexivity. Qed.

(* ================================================================== *)
(** ** Applying the same update twice *)

Lemma recompute_skip (db : Store) (now : Z) (e : WatchEntry.t) :
  WatchEntry.status e = "watched" -> ProgressService.recompute db now e = Py.Ok e.
Proof. unfold ProgressService.recompute. now intros ->. Qed.

Lemma recompute_full (db : Store) (now t : Z) (e : WatchEntry.t) :
  WatchEntry.status e <> "watched" ->
  WatchEntry.total_episodes e = Some t ->
  t <= Py.or0 (WatchEntry.watched_episodes e) -> 0 < t ->
  ProgressService.recompute db now e
  = Py.Ok (WatchEntry.set_updated_at (Some now) (terminal (series_content db e) e)).
Proof.
  intros NW T L P.
  destruct (recompute_total_set db now t e T) as [_ R].
  destruct (R NW) as [R1 _]. rewrite R1 by auto. apply mark_as_watched_eq.
Qed.

Lemma recompute_partial (db : Store) (now : Z) (e : WatchEntry.t) :
  WatchEntry.status e <> "watched" ->
  falls_short e ->
  ProgressService.recompute db now e
  = Py.Ok (WatchEntry.set_status (partial_status e) e).
Proof.
  intros NW [(t & T & N)|[T N]]; unfold partial_status.
  - destruct (recompute_total_set db now t e T) as [_ R].
    destruct (R NW) as (_ & R1 & R2).
    destruct (Z.ltb_spec 0 (Py.or0 (WatchEntry.watched_episodes e)));
      [apply R1|apply R2]; auto.
  - unfold ProgressService.recompute. apply String.eqb_neq in NW. rewrite NW, T.
    cbn [negb Py.or0].
    destruct (Z.leb_spec 0 (Py.or0 (WatchEntry.watched_episodes e))); [lia|].
    cbn [Py.bind].
    destruct (Z.ltb_spec 0 (Py.or0 (WatchEntry.watched_episodes e))); [lia|].
    reflexivity.
Qed.

Lemma recompute_inv (db : Store) (now : Z) (e e' : WatchEntry.t) :
  ProgressService.recompute db now e = Py.Ok e' ->
  (WatchEntry.status e = "watched" /\ e' = e)
  \/ (WatchEntry.status e <> "watched"
      /\ (exists t, WatchEntry.total_episodes e = Some t
                    /\ t <= Py.or0 (WatchEntry.watched_episodes e) /\ 0 < t)
      /\ e' = WatchEntry.set_updated_at (Some now)
                (terminal (series_content db e) e))
  \/ (WatchEntry.status e <> "watched" /\ falls_short e
      /\ e' = WatchEntry.set_status (partial_status e) e).
Proof.
  intros R.
  destruct (String.eqb_spec (WatchEntry.status e) "watched") as [W|NW].
  - left. rewrite recompute_skip in R by assumption. now injection R as <-.
  - right.
    destruct (WatchEntry.total_episodes e) as [t|] eqn:T.
    + destruct (Z.le_gt_cases t (Py.or0 (WatchEntry.watched_episodes e))) as [L|G].
      * destruct (Z.lt_ge_cases 0 t) as [P|NP].
        -- left. rewrite (recompute_full db now t) in R by assumption.
           injection R as <-. eauto 10.
        -- right. assert (F : falls_short e) by (left; exists t; split; [auto|lia]).
           rewrite recompute_partial in R by assumption. now injection R as <-.
      * right. assert (F : falls_short e) by (left; exists t; split; [auto|lia]).
        rewrite recompute_partial in R by assumption. now injection R as <-.
    + right.
      destruct (Z.lt_ge_cases (Py.or0 (WatchEntry.watched_episodes e)) 0) as [N|NN].
      * assert (F : falls_short e) by (right; auto).
        rewrite recompute_partial in R by assumption. now injection R as <-.
      * destruct (recompute_total_unset db now e T NW) as [msg M]; [lia|].
        congruence.
Qed.

(** The terminal transition on a series entry whose total is non-zero,
    by cases on the season row the cursor moves to. *)
Lemma terminal_series_known_total (sc : option (list Season.t)) (e : WatchEntry.t) :
  WatchEntry.content_type e = "series" ->
  Py.truthy (WatchEntry.total_episodes e) = true ->
  terminal sc e
  = match cursor_row sc with
    | Some s =>
        WatchEntry.set_current_episode (Some (Season.episodes_count s))
          (WatchEntry.set_current_season (Some (Season.number s))
             (WatchEntry.set_watched_episodes (WatchEntry.total_episodes e)
                (WatchEntry.set_status "watched" e)))
    | None =>
        WatchEntry.set_watched_episodes (WatchEntry.total_episodes e)
          (WatchEntry.set_status "watched" e)
    end.
Proof.
  intros CT T. unfold terminal, cursor_row.
  cbn [WatchEntry.content_type WatchEntry.set_status WatchEntry.total_episodes].
  rewrite CT, T. cbn [String.eqb Ascii.eqb Bool.eqb andb].
  destruct sc as [l|]; reflexivity.
Qed.

Ltac entry_norm :=
  cbv beta iota zeta delta
    [ProgressService.apply_cursor ProgressService.apply_watched_episodes
     partial_status
     WatchEntry.set_status WatchEntry.set_current_season
     WatchEntry.set_current_episode WatchEntry.set_watched_episodes
     WatchEntry.set_total_episodes WatchEntry.set_updated_at WatchEntry.set_movie_content_id
     WatchEntry.set_series_content_id
     WatchEntry.id WatchEntry.user_id WatchEntry.content_type
     WatchEntry.content_id WatchEntry.status WatchEntry.current_season
     WatchEntry.current_episode WatchEntry.watched_episodes
     WatchEntry.total_episodes WatchEntry.created_at WatchEntry.updated_at
     WatchEntry.movie_content_id WatchEntry.series_content_id
     Payload.watched_episodes Payload.current_season Payload.current_episode
     Payload.status Payload.other_keys
     Py.or0 progress_state] in *.

(** Resolve one [terminal] on an entry in constructor form. *)
Ltac terminal_cases Tr :=
  match goal with
  | |- context [terminal ?sc ?x] =>
      lazymatch x with
      | context [terminal _ _] => fail
      | _ =>
          first
            [ rewrite (terminal_series_known_total sc x)
                by (try reflexivity; exact Tr)
            | rewrite (terminal_series_unknown_total sc x)
                by (try reflexivity; exact Tr) ]
      end
  end.

Lemma update_entry_idempotent (db : Store) (now now' : Z) (p : Payload.t)
    (e e1 : WatchEntry.t) :
  WatchEntry.content_type e = "series" ->
  ProgressService.update_entry db now p e = Py.Ok e1 ->
  Payload.status p <> None
  \/ (Payload.current_season p = None /\ Payload.current_episode p = None)
  \/ WatchEntry.status e = "watched"
  \/ WatchEntry.status e1 <> "watched" ->
  exists e2,
    ProgressService.update_entry db now' p e1 = Py.Ok e2
    /\ progress_state e2 = progress_state e1.
Proof.
  intros CT U H.
  destruct e as [i u ct cid st cs ce w t ca ua mc sci].
  destruct p as [pw pcs pce ps po].
  cbn [WatchEntry.content_type] in CT. subst ct.
  cbn [Payload.status Payload.current_season Payload.current_episode WatchEntry.status] in H.
  destruct ps as [s|]; [destruct (String.eqb_spec s "watched") as [->|Snw]|].
  - (* the payload asks for status watched *)
    rewrite update_entry_status_watched in U by reflexivity. injection U as <-.
    eexists. split; [apply update_entry_status_watched; reflexivity|].
    destruct (Py.truthy t) eqn:Tr.
    all: destruct pw, pcs, pce.
    all: terminal_cases Tr.
    all: unfold series_content; entry_norm.
    all: try destruct (cursor_row _) eqn:Erow; entry_norm.
    all: terminal_cases Tr; rewrite ?Erow; reflexivity.
  - (* the payload sets another status: recomputation runs *)
    unfold ProgressService.update_entry, ProgressService.apply_status in U |- *.
    cbn [Payload.status] in U |- *.
    apply String.eqb_neq in Snw. rewrite Snw in U |- *. cbn [Py.bind] in U |- *.
    apply String.eqb_neq in Snw.
    apply recompute_inv in U as [[W _]|[(_ & (t' & T' & L & P) & ->)|(_ & F & ->)]].
    + destruct pw, pcs, pce; entry_norm; congruence.
    + (* the first update reaches the total *)
      destruct pw, pcs, pce; entry_norm; subst t.
      all: assert (Tr' : Py.truthy (Some t') = true)
        by (cbn; apply negb_true_iff, Z.eqb_neq; lia).
      all: terminal_cases Tr'; unfold series_content; entry_norm.
      all: destruct (cursor_row _) eqn:Erow; entry_norm.
      all: eexists; split;
        [apply (recompute_full db now' t'); entry_norm;
         [exact Snw|reflexivity|lia|lia]|].
      all: terminal_cases Tr'; unfold series_content; entry_norm.
      all: rewrite Erow; reflexivity.
    + (* the first update stays short of the total *)
      eexists; split.
      * apply recompute_partial; [exact Snw|].
        destruct pw, pcs, pce; exact F.
      * destruct pw, pcs, pce; reflexivity.
  - (* no status in the payload *)
    unfold ProgressService.update_entry, ProgressService.apply_status in U |- *.
    cbn [Payload.status Py.bind] in U |- *.
    apply recompute_inv in U as [[W ->]|[(NW & (t' & T' & L & P) & ->)|(NW & F & ->)]].
    + (* the entry was watched already: recomputation is skipped twice *)
      eexists; split.
      * apply recompute_skip. destruct pw, pcs, pce; exact W.
      * destruct pw, pcs, pce; reflexivity.
    + (* the first update reaches the total; the second finds it watched *)
      eexists; split.
      * apply recompute_skip. destruct pw, pcs, pce; apply terminal_status.
      * destruct H as [H|[[-> ->]|[H|H]]].
        -- congruence.
        -- destruct pw; entry_norm; subst t.
           all: assert (Tr' : Py.truthy (Some t') = true)
             by (cbn; apply negb_true_iff, Z.eqb_neq; lia).
           all: terminal_cases Tr'; unfold series_content; entry_norm.
           all: destruct (cursor_row _) eqn:Erow; entry_norm.
           all: repeat f_equal; lia.
        -- exfalso. apply NW. destruct pw, pcs, pce; exact H.
        -- exfalso. apply H. apply terminal_status.
    + (* the first update stays short of the total *)
      assert (PS : forall x, partial_status x <> "watched").
      { intros x. unfold partial_status. destruct (_ <? _)%Z; discriminate. }
      eexists; split.
      * apply recompute_partial.
        -- destruct pw, pcs, pce; apply PS.
        -- destruct pw, pcs, pce; exact F.
      * destruct pw, pcs, pce; reflexivity.
Qed.

(** The update reads the store only through the catalog. *)
Lemma update_entry_same_catalog (db db' : Store) (now : Z) (p : Payload.t)
    (e : WatchEntry.t) :
  series db' = series db -> seasons db' = seasons db ->
  ProgressService.update_entry db' now p e
  = ProgressService.update_entry db now p e.
Proof.
  intros S1 S2.
  unfold ProgressService.update_entry, ProgressService.apply_status,
    ProgressService.recompute.
  rewrite (series_content_same_catalog db db') by assumption.
  destruct (match Payload.status p with
            | Some s => _
            | None => _
            end) as [e'|]; cbn [Py.bind]; [|reflexivity].
  now rewrite (series_content_same_catalog db db') by assumption.
Qed.

Lemma update_series_progress_inv (db db1 : Store) (now u sid : Z)
    (p : Payload.t) (d1 : WatchEntry.dict) :
  ProgressService.update_series_progress db now u sid p = Py.Ok (db1, d1) ->
  exists e e1,
    query_entry db u "series" sid = Some e
    /\ ProgressService.update_entry db now p e = Py.Ok e1
    /\ d1 = WatchEntry.to_dict e1
    /\ query_entry db1 u "series" sid = Some e1
    /\ movies db1 = movies db /\ series db1 = series db
    /\ seasons db1 = seasons db
    /\ watch_entries db1
       = replace_first (entry_matches u "series" sid) e1 (watch_entries db).
Proof.
  intros R.
  destruct (query_entry db u "series" sid) as [e|] eqn:Q.
  - destruct (ProgressService.update_entry db now p e) as [e1|] eqn:U.
    + destruct (update_series_progress_commit db now u sid p e e1 Q U)
        as (db' & R' & Q' & M & S & SS & W).
      rewrite R' in R. injection R as <- <-. eauto 12.
    + unfold ProgressService.update_series_progress in R. rewrite Q, U in R.
      discriminate.
  - unfold ProgressService.update_series_progress in R. rewrite Q in R.
    discriminate.
Qed.

(** C5 (as the code has it).  Applying the same update twice leaves the
    entry in the state (status, watched_episodes, current_season,
    current_episode) the first application produced, whenever the payload
    carries a status, or carries neither cursor field, or the entry was
    watched before, or the first application did not end in watched.  The
    case left out is the one where recomputation marks the entry watched
    and overwrites the cursor: the second application then finds the
    entry watched, skips recomputation and stores the payload's cursor. *)
Theorem update_twice_same_state
    (db db1 : Store) (now now' user_id series_id : Z) (payload : Payload.t)
    (entry : WatchEntry.t) (d1 : WatchEntry.dict) :
  query_entry db user_id "series" series_id = Some entry ->
  ProgressService.update_series_progress db now user_id series_id payload
  = Py.Ok (db1, d1) ->
  Payload.status payload <> None
  \/ (Payload.current_season payload = None
      /\ Payload.current_episode payload = None)
  \/ WatchEntry.status entry = "watched"
  \/ WatchEntry.d_status d1 <> "watched" ->
  exists db2 d2 e1 e2,
    ProgressService.update_series_progress db1 now' user_id series_id payload
    = Py.Ok (db2, d2)
    /\ query_entry db1 user_id "series" series_id = Some e1
    /\ query_entry db2 user_id "series" series_id = Some e2
    /\ progress_state e2 = progress_state e1.
Proof.
  intros Q R H.
  destruct (update_series_progress_inv _ _ _ _ _ _ _ R)
    as (e & e1 & Q0 & U & -> & Q1 & _ & S1 & SS1 & _).
  rewrite Q in Q0. injection Q0 as <-.
  destruct (query_entry_matches _ _ _ _ _ Q) as (_ & CT & _).
  destruct (update_entry_idempotent db now now' payload entry e1 CT U H)
    as (e2 & U2 & PS).
  rewrite <- (update_entry_same_catalog db db1) in U2 by assumption.
  destruct (update_series_progress_commit db1 now' _ _ payload _ _ Q1 U2)
    as (db2 & R2 & Q2 & _).
  exists db2, (WatchEntry.to_dict e2), e1, e2. auto.
Qed.

Lemma update_twice_same_state_witness :
  exists db2 d2 e1 e2,
    ProgressService.update_series_progress
      (set_watch_entries
         [WatchEntry.mk (Some 1) 7 "series" 1 "watching" (Some 1) (Some 1)
                        (Some 5) (Some 18) (Some 100) (Some 100) None (Some 1)]
         sample_catalog)
      102 7 1 (Payload.mk (Some 5) None None None [])
    = Py.Ok (db2, d2)
    /\ query_entry
         (set_watch_entries
            [WatchEntry.mk (Some 1) 7 "series" 1 "watching" (Some 1) (Some 1)
                           (Some 5) (Some 18) (Some 100) (Some 100) None (Some 1)]
            sample_catalog) 7 "series" 1 = Some e1
    /\ query_entry db2 7 "series" 1 = Some e2
    /\ progress_state e2 = progress_state e1.
Proof.
  apply (update_twice_same_state sample_db
           (set_watch_entries
              [WatchEntry.mk (Some 1) 7 "series" 1 "watching" (Some 1) (Some 1)
                             (Some 5) (Some 18) (Some 100) (Some 100) None (Some 1)]
              sample_catalog)
           101 102 7 1
           (Payload.mk (Some 5) None None None []) sample_entry
           (WatchEntry.mk_dict (Some 1) 7 "series" 1 "watching" (Some 1) (Some 1)
                               (Some 5) (Some 18) 2778 (Some 100)));
    [reflexivity|reflexivity|right; left; split; reflexivity].
Defined.

(** C5 (as stated) fails: on the sample store,
    [{watched_episodes: 18, current_season: 1}] first completes the series
    and puts the cursor on season 2, episode 8; applied again it leaves the
    cursor on season 1. *)
Lemma update_twice_differs :
  ~ (forall db db1 db2 now now' user_id series_id payload d1 d2,
       ProgressService.update_series_progress db now user_id series_id payload
       = Py.Ok (db1, d1) ->
       ProgressService.update_series_progress db1 now' user_id series_id payload
       = Py.Ok (db2, d2) ->
       option_map progress_state (query_entry db2 user_id "series" series_id)
       = option_map progress_state (query_entry db1 user_id "series" series_id)).
Proof.
  intros C.
  pose (e1 := WatchEntry.mk (Some 1) 7 "series" 1 "watched" (Some 2) (Some 8)
                (Some 18) (Some 18) (Some 100) (Some 101) None (Some 1)).
  pose (e2 := WatchEntry.mk (Some 1) 7 "series" 1 "watched" (Some 1) (Some 8)
                (Some 18) (Some 18) (Some 100) (Some 101) None (Some 1)).
  specialize (C sample_db (set_watch_entries [e1] sample_catalog)
                (set_watch_entries [e2] sample_catalog) 101 102 7 1
                (Payload.mk (Some 18) (Some 1) None None [])
                (WatchEntry.to_dict e1) (WatchEntry.to_dict e2)
                eq_refl eq_refl).
  vm_compute in C. discriminate C.
Qed.

Example scenario_update_twice :
  let p := Payload.mk (Some 18) (Some 1) None None [] in
  match ProgressService.update_series_progress sample_db 101 7 1 p with
  | Py.Ok (db1, d1) =>
      match ProgressService.update_series_progress db1 102 7 1 p with
      | Py.Ok (_, d2) =>
          (WatchEntry.d_status d1, WatchEntry.d_watched_episodes d1,
           WatchEntry.d_current_season d1, WatchEntry.d_current_episode d1)
          = ("watched", Some 18, Some 2, Some 8)
          /\ (WatchEntry.d_status d2, WatchEntry.d_watched_episodes d2,
              WatchEntry.d_current_season d2, WatchEntry.d_current_episode d2)
             = ("watched", Some 18, Some 1, Some 8)
      | Py.Raise _ => False
      end
  | Py.Raise _ => False
  end.
Proof. vm_compute. split; reflexivity. Qed.

(* ================================================================== *)
(** ** The percentage *)




(* ================================================================== *)
(** ** The invariant of reachable stores *)



Lemma in_replace_first (p : WatchEntry.t -> bool) (e' x : WatchEntry.t)
    (l : list WatchEntry.t) :
  In x (replace_first p e' l) -> x = e' \/ In x l.
Proof.
  induction l as [|y ys IH]; simpl; [tauto|].
  destruct (p y); simpl; intros [<-|I]; auto.
  destruct (IH I); auto.
Qed.








Example scenario_long_series :
  WatchEntry.percentage_watched long_entry = 10000
  /\ WatchEntry.status long_entry = "watching".
Proof. split; reflexivity. Qed.

(* ================================================================== *)
(** ** Decimal numerals: [str] and [int] *)

Lemma string_of_uint_digits (d : uint) :
  Forall is_digit (list_ascii_of_string (NilEmpty.string_of_uint d)).
Proof.
  induction d; simpl; constructor; auto; eexists; reflexivity.
Qed.

Lemma digit_not_space (c : ascii) : is_digit c -> Py.is_space c = false.
Proof.
  intros [d D]. destruct c as [[] [] [] [] [] [] [] []]; try discriminate D;
    reflexivity.
Qed.

Lemma digit_not_underscore (c : ascii) :
  is_digit c -> Py.is_underscore c = false.
Proof.
  intros [d D]. destruct c as [[] [] [] [] [] [] [] []]; try discriminate D;
    reflexivity.
Qed.

Lemma digits_string_of_uint (d : uint) :
  d <> Nil ->
  Py.digits (list_ascii_of_string (NilEmpty.string_of_uint d)) = Some d.
Proof.
  induction d; intros NE; try congruence.
  all: cbn [NilEmpty.string_of_uint list_ascii_of_string Py.digits Py.digit].
  all: destruct d;
    [reflexivity
    |cbn [NilEmpty.string_of_uint list_ascii_of_string] in *;
     cbn [Py.is_underscore Ascii.eqb Bool.eqb];
     rewrite IHd by discriminate; reflexivity ..].
Qed.

Lemma lstrip_head (c : ascii) (cs : list ascii) :
  Py.is_space c = false -> Py.lstrip (c :: cs) = c :: cs.
Proof. intros H. simpl. now rewrite H. Qed.

Lemma strip_no_space (cs : list ascii) :
  Forall (fun c => Py.is_space c = false) cs -> Py.strip cs = cs.
Proof.
  intros F. unfold Py.strip.
  assert (L : forall l, Forall (fun c => Py.is_space c = false) l ->
                        Py.lstrip l = l).
  { intros [|c l] Fl; [reflexivity|]. apply lstrip_head. now inversion Fl. }
  rewrite (L cs F), (L (List.rev cs)) by now apply Forall_rev.
  apply rev_involutive.
Qed.

Lemma digits_no_space (cs : list ascii) :
  Forall is_digit cs -> Forall (fun c => Py.is_space c = false) cs.
Proof. apply Forall_impl, digit_not_space. Qed.

(** [int(str(z)) == z]. *)
Lemma int_of_str_of_int (z : Z) : Py.int_of_str (Py.str_of_int z) = Some z.
Proof.
  unfold Py.int_of_str, Py.str_of_int.
  destruct z as [|p|p]; [reflexivity| |].
  - pose proof (DecimalZ.of_to (Z.pos p)) as OT.
    cbn [Z.to_int] in *. cbn [NilZero.string_of_int].
    pose proof (DecimalPos.Unsigned.to_uint_nonnil p) as NN.
    set (d := Pos.to_uint p) in *.
    assert (E : NilZero.string_of_uint d = NilEmpty.string_of_uint d)
      by (destruct d; congruence || reflexivity).
    rewrite E.
    pose proof (string_of_uint_digits d) as FD.
    pose proof (digits_string_of_uint d NN) as DG.
    rewrite strip_no_space by now apply digits_no_space.
    destruct (list_ascii_of_string (NilEmpty.string_of_uint d)) as [|c ds];
      [discriminate DG|].
    inversion FD as [|? ? [k K] _]; subst.
    assert (Ascii.eqb c "-" = false /\ Ascii.eqb c "+" = false) as [-> ->].
    { destruct c as [[] [] [] [] [] [] [] []]; try discriminate K; auto. }
    rewrite DG. cbn [option_map]. now rewrite OT.
  - pose proof (DecimalZ.of_to (Z.neg p)) as OT.
    cbn [Z.to_int] in *. cbn [NilZero.string_of_int].
    pose proof (DecimalPos.Unsigned.to_uint_nonnil p) as NN.
    set (d := Pos.to_uint p) in *.
    assert (E : NilZero.string_of_uint d = NilEmpty.string_of_uint d)
      by (destruct d; congruence || reflexivity).
    rewrite E. cbn [list_ascii_of_string].
    pose proof (string_of_uint_digits d) as FD.
    rewrite strip_no_space
      by (constructor; [reflexivity|now apply digits_no_space]).
    cbn [Ascii.eqb Bool.eqb].
    rewrite (digits_string_of_uint d NN). cbn [option_map]. now rewrite OT.
Qed.

(* ================================================================== *)
(** ** The user identifier *)

Lemma require_user_id_rejects (f : Z -> Store -> Response * Store)
    (h : option string) (db : Store) :
  headers_get_int h = None \/ headers_get_int h = Some 0 ->
  require_user_id f h db
  = (mk_response 401 (Aborted "Header X-User-Id es obligatorio."), db).
Proof. unfold require_user_id. now intros [-> | ->]. Qed.

Lemma require_user_id_accepts (f : Z -> Store -> Response * Store)
    (h : option string) (db : Store) (z : Z) :
  headers_get_int h = Some z -> z <> 0 ->
  require_user_id f h db = f z db.
Proof.
  unfold require_user_id. intros -> NZ. cbn [Py.truthy Py.or0].
  apply Z.eqb_neq in NZ. now rewrite NZ.
Qed.

(** C9 (as the code has it).  A request is answered 401, and the view is
    not run, exactly when the header is absent, is not an integer numeral,
    or is zero.  Every other integer, negative ones included, is passed to
    the view as the user id; in particular the numeral of a positive
    integer is accepted. *)
Theorem require_user_id_spec (f : Z -> Store -> Response * Store)
    (h : option string) (db : Store) :
  (headers_get_int h = None \/ headers_get_int h = Some 0 ->
   require_user_id f h db
   = (mk_response 401 (Aborted "Header X-User-Id es obligatorio."), db))
  /\ (forall z, headers_get_int h = Some z -> z <> 0 ->
      require_user_id f h db = f z db)
  /\ (forall z, 0 < z ->
      require_user_id f (Some (Py.str_of_int z)) db = f z db)
  /\ require_user_id f None db
     = (mk_response 401 (Aborted "Header X-User-Id es obligatorio."), db).
Proof.
  split; [apply require_user_id_rejects|].
  split; [apply require_user_id_accepts|].
  split.
  - intros z P. apply require_user_id_accepts; [|lia].
    apply int_of_str_of_int.
  - reflexivity.
Qed.

Lemma require_user_id_spec_witness :
  let f := add_movie_to_watchlist_view 100 1 in
  require_user_id f (Some "0") sample_catalog
  = (mk_response 401 (Aborted "Header X-User-Id es obligatorio."),
     sample_catalog)
  /\ require_user_id f (Some "-5") sample_catalog = f (-5) sample_catalog
  /\ require_user_id f (Some (Py.str_of_int 42)) sample_catalog
     = f 42 sample_catalog.
Proof.
  intros f. split; [|split].
  - destruct (require_user_id_spec f (Some "0") sample_catalog) as (R & _).
    apply R. right. reflexivity.
  - destruct (require_user_id_spec f (Some "-5") sample_catalog) as (_ & A & _).
    apply A; [reflexivity|lia].
  - destruct (require_user_id_spec f None sample_catalog) as (_ & _ & P & _).
    apply P. lia.
Defined.

(** C9 (as stated) fails: the header [-5] is not a positive integer, yet
    the request is served, and an entry is created for user -5. *)
Lemma negative_user_id_accepted :
  ~ (forall f h db,
       (forall z, headers_get_int h = Some z -> z <= 0) ->
       code (fst (require_user_id f h db)) = 401).
Proof.
  intros C.
  specialize (C (add_movie_to_watchlist_view 100 1) (Some "-5") sample_catalog).
  assert (H : forall z, headers_get_int (Some "-5") = Some z -> z <= 0).
  { intros z E. vm_compute in E. injection E as <-. lia. }
  specialize (C H). vm_compute in C. discriminate C.
Qed.

Example scenario_user_ids :
  map (fun h => code (fst (add_movie_to_watchlist 100 1 h sample_catalog)))
      [None; Some ""; Some "abc"; Some "0"; Some "7"; Some " 7 "; Some "-5"]
  = [401; 401; 401; 401; 201; 201; 201].
Proof. vm_compute. reflexivity. Qed.

(* ================================================================== *)
(** ** Error messages and the status code they are mapped to *)

Lemma prefix_first_char (c a : ascii) (pat s : string) :
  String.prefix (String c pat) (String a s) = true -> c = a.
Proof. simpl. now destruct (ascii_dec c a). Qed.

(** A string that contains a pattern contains its first character. *)
Lemma contains_first_char (c : ascii) (pat s : string) :
  Py.contains (String c pat) s = true -> In c (list_ascii_of_string s).
Proof.
  induction s as [|a s IH]; [discriminate|].
  cbn [Py.contains list_ascii_of_string]. intros H.
  apply orb_prop in H as [H|H].
  - left. symmetry. now apply prefix_first_char in H.
  - right. now apply IH.
Qed.

Lemma list_ascii_of_string_app (a b : string) :
  list_ascii_of_string (a ++ b)
  = (list_ascii_of_string a ++ list_ascii_of_string b)%list.
Proof. induction a; simpl; congruence. Qed.

Lemma str_of_int_chars (z : Z) (c : ascii) :
  In c (list_ascii_of_string (Py.str_of_int z)) -> c = "-"%char \/ is_digit c.
Proof.
  unfold Py.str_of_int.
  assert (U : forall d, In c (list_ascii_of_string (NilZero.string_of_uint d)) ->
                        is_digit c).
  { intros d I.
    assert (F : Forall is_digit (list_ascii_of_string (NilZero.string_of_uint d))).
    { destruct d; try apply (string_of_uint_digits (_ _)).
      repeat constructor. eexists; reflexivity. }
    now apply (proj1 (Forall_forall _ _) F). }
  destruct (Z.to_int z) as [d|d]; cbn [NilZero.string_of_int list_ascii_of_string].
  - right. eauto.
  - intros [<-|I]; [now left|right; eauto].
Qed.

(** The message of a duplicate season is not taken for "not found". *)
Lemma season_exists_message (n : Z) :
  Py.contains "no existe"
    ("La temporada " ++ Py.str_of_int n ++ " ya existe para esta serie.")
  = false.
Proof.
  apply not_true_is_false. intros H. apply contains_first_char in H.
  rewrite !list_ascii_of_string_app in H.
  apply in_app_or in H as [H|H]; [|apply in_app_or in H as [H|H]].
  - cbn in H. intuition discriminate.
  - apply str_of_int_chars in H as [H|[d H]]; discriminate H.
  - cbn in H. intuition discriminate.
Qed.

Lemma add_season_keeps_entries (db db' : Store) (sid : Z)
    (p : SeasonPayload.t) (s : Season.t) :
  SeriesService.add_season db sid p = Py.Ok (db', s) ->
  watch_entries db' = watch_entries db
  /\ movies db' = movies db /\ series db' = series db.
Proof.
  unfold SeriesService.add_season.
  destruct (get_series db sid); [|discriminate].
  destruct (SeasonPayload.number p) as [n|]; [|discriminate].
  destruct (SeasonPayload.episodes_count p) as [c|]; [|discriminate].
  destruct (query_season db sid n); [discriminate|].
  cbn. intros [= <- _]. auto.
Qed.

(** C6 (as the code has it).  Adding to an existing series a season whose
    number an existing season of that series already has raises
    [ValueError] in the service and is answered 400; no season is created
    and the store is unchanged. *)
Theorem add_season_duplicate_number
    (db : Store) (series_id number : Z) (payload : SeasonPayload.t)
    (s : Series.t) (old : Season.t) :
  get_series db series_id = Some s ->
  In old (seasons db) ->
  Season.series_id old = series_id ->
  Season.number old = number ->
  SeasonPayload.number payload = Some number ->
  exists msg,
    SeriesService.add_season db series_id payload = Py.Raise (Py.ValueError msg)
    /\ add_season series_id payload db = (mk_response 400 (JsonError msg), db).
Proof.
  intros G I S N P.
  assert (Q : exists x, query_season db series_id number = Some x).
  { unfold query_season.
    destruct (find _ (seasons db)) as [x|] eqn:F; [eauto|].
    apply (find_none _ _ F) in I. rewrite S, N, !Z.eqb_refl in I. discriminate. }
  destruct Q as [x Q].
  unfold add_season, SeriesService.add_season. rewrite G, P.
  destruct (SeasonPayload.episodes_count payload) as [c|].
  - rewrite Q. eexists. split; [reflexivity|].
    now rewrite season_exists_message.
  - eexists. split; reflexivity.
Qed.

Lemma add_season_duplicate_number_witness :
  exists msg,
    SeriesService.add_season sample_catalog 1 (SeasonPayload.mk (Some 2) (Some 12))
    = Py.Raise (Py.ValueError msg)
    /\ add_season 1 (SeasonPayload.mk (Some 2) (Some 12)) sample_catalog
       = (mk_response 400 (JsonError msg), sample_catalog).
Proof.
  apply (add_season_duplicate_number sample_catalog 1 2
           (SeasonPayload.mk (Some 2) (Some 12))
           (Series.mk 1 "Dark" 2) (Season.mk 2 1 2 8));
    [reflexivity|simpl; auto|reflexivity|reflexivity|reflexivity].
Defined.

(** C6 (as stated) fails: the duplicate season is answered 400, not 409. *)
Lemma add_season_duplicate_not_409 :
  ~ (forall db series_id number payload s old,
       get_series db series_id = Some s ->
       In old (seasons db) ->
       Season.series_id old = series_id ->
       Season.number old = number ->
       SeasonPayload.number payload = Some number ->
       code (fst (add_season series_id payload db)) = 409).
Proof.
  intros C.
  specialize (C sample_catalog 1 2 (SeasonPayload.mk (Some 2) (Some 12))
                (Series.mk 1 "Dark" 2) (Season.mk 2 1 2 8)
                eq_refl (or_intror (or_introl eq_refl)) eq_refl eq_refl eq_refl).
  vm_compute in C. discriminate C.
Qed.

Example scenario_duplicate_season :
  add_season 1 (SeasonPayload.mk (Some 2) (Some 12)) sample_catalog
  = (mk_response 400 (JsonError "La temporada 2 ya existe para esta serie."),
     sample_catalog).
Proof. vm_compute. reflexivity. Qed.

(* ================================================================== *)
(** ** Adding to the watchlist *)

Lemma find_app_none {A : Type} (p : A -> bool) (l : list A) (x : A) :
  find p l = None -> find p (l ++ [x]) = if p x then Some x else None.
Proof.
  induction l as [|y ys IH]; simpl; [reflexivity|].
  destruct (p y); [discriminate|exact IH].
Qed.

(** A progress update never changes the total of the entry it commits. *)
Lemma update_series_progress_total (db db' : Store) (now u sid : Z)
    (p : Payload.t) (d : WatchEntry.dict) (e : WatchEntry.t) :
  query_entry db u "series" sid = Some e ->
  ProgressService.update_series_progress db now u sid p = Py.Ok (db', d) ->
  WatchEntry.d_total_episodes d = WatchEntry.total_episodes e.
Proof.
  intros Q R.
  destruct (update_series_progress_inv _ _ _ _ _ _ _ R)
    as (e0 & e1 & Q0 & U & -> & _).
  rewrite Q in Q0. injection Q0 as <-.
  now destruct (update_entry_keys _ _ _ _ _ U) as (_ & _ & _ & _ & T & _).
Qed.

(** C7.  For an existing series that the user does not track yet,
    [add_series] appends one entry: pending, nothing watched, cursor on
    season 1 episode 1, and a total that is the sum of [episodes_count]
    over the seasons the series has at that moment (0 without seasons).
    A season added later leaves the entry as it is, and a later progress
    update reports the same total. *)
Theorem add_series_creates_entry
    (db : Store) (now user_id series_id : Z) (s : Series.t) :
  get_series db series_id = Some s ->
  query_entry db user_id "series" series_id = None ->
  let total :=
    Py.sum (map Season.episodes_count (series_seasons db s)) in
  exists db' row,
    ProgressService.add_series db now user_id series_id
    = Py.Ok (db', WatchEntry.to_dict row)
    /\ watch_entries db' = (watch_entries db ++ [row])%list
    /\ query_entry db' user_id "series" series_id = Some row
    /\ WatchEntry.user_id row = user_id
    /\ WatchEntry.content_type row = "series"
    /\ WatchEntry.content_id row = series_id
    /\ WatchEntry.status row = "pending"
    /\ WatchEntry.watched_episodes row = Some 0
    /\ WatchEntry.current_season row = Some 1
    /\ WatchEntry.current_episode row = Some 1
    /\ WatchEntry.total_episodes row = Some total
    /\ (series_seasons db s = [] -> WatchEntry.total_episodes row = Some 0)
    /\ (forall sid' payload db'' season,
          SeriesService.add_season db' sid' payload = Py.Ok (db'', season) ->
          query_entry db'' user_id "series" series_id = Some row
          /\ forall now' p db3 d3,
               ProgressService.update_series_progress
                 db'' now' user_id series_id p = Py.Ok (db3, d3) ->
               WatchEntry.d_total_episodes d3 = Some total).
Proof.
  intros G Q total. unfold ProgressService.add_series. rewrite G, Q.
  cbn [insert_entry WatchEntry.init String.eqb Ascii.eqb Bool.eqb].
  eexists _, _. split; [reflexivity|]. split; [reflexivity|].
  match goal with
  | |- query_entry ?d _ _ _ = Some ?r /\ _ =>
      assert (Q' : query_entry d user_id "series" series_id = Some r)
  end.
  { unfold query_entry in *. cbn [watch_entries set_watch_entries].
    rewrite find_app_none by exact Q.
    unfold entry_matches. cbn. now rewrite !Z.eqb_refl. }
  split; [exact Q'|]. repeat (split; [reflexivity|]).
  split.
  - intros E. subst total. now rewrite E.
  - intros sid' payload db'' season A.
    destruct (add_season_keeps_entries _ _ _ _ _ A) as (W & _).
    pose proof Q' as Q''. unfold query_entry in Q''. rewrite <- W in Q''.
    split; [exact Q''|].
    intros now' p db3 d3 R.
    now rewrite (update_series_progress_total _ _ _ _ _ _ _ _ Q'' R).
Qed.

Lemma add_series_creates_entry_witness :
  let total :=
    Py.sum (map Season.episodes_count
                (series_seasons sample_catalog (Series.mk 1 "Dark" 2))) in
  exists db' row,
    ProgressService.add_series sample_catalog 100 7 1
    = Py.Ok (db', WatchEntry.to_dict row)
    /\ watch_entries db' = (watch_entries sample_catalog ++ [row])%list
    /\ query_entry db' 7 "series" 1 = Some row
    /\ WatchEntry.user_id row = 7
    /\ WatchEntry.content_type row = "series"
    /\ WatchEntry.content_id row = 1
    /\ WatchEntry.status row = "pending"
    /\ WatchEntry.watched_episodes row = Some 0
    /\ WatchEntry.current_season row = Some 1
    /\ WatchEntry.current_episode row = Some 1
    /\ WatchEntry.total_episodes row = Some total
    /\ (series_seasons sample_catalog (Series.mk 1 "Dark" 2) = [] ->
        WatchEntry.total_episodes row = Some 0)
    /\ (forall sid' payload db'' season,
          SeriesService.add_season db' sid' payload = Py.Ok (db'', season) ->
          query_entry db'' 7 "series" 1 = Some row
          /\ forall now' p db3 d3,
               ProgressService.update_series_progress db'' now' 7 1 p
               = Py.Ok (db3, d3) ->
               WatchEntry.d_total_episodes d3 = Some total).
Proof.
  apply (add_series_creates_entry sample_catalog 100 7 1 (Series.mk 1 "Dark" 2));
    reflexivity.
Defined.

(** The scenario of the specification: seasons (1, 10) and (2, 8) give a
    total of 18, and a third season added afterwards does not change it. *)
Example scenario_add_series :
  query_entry sample_db 7 "series" 1 = Some sample_entry
  /\ match add_season 1 (SeasonPayload.mk (Some 3) (Some 6)) sample_db with
     | (r, db') =>
         code r = 201
         /\ query_entry db' 7 "series" 1 = Some sample_entry
         /\ map Season.episodes_count (seasons db') = [10; 8; 6]
     end.
Proof. vm_compute. repeat split. Qed.

(** C8.  When the user already has an entry for an existing movie or
    series, adding it again raises in the service, the route answers 409,
    and the store, hence the existing entry, is unchanged. *)
Theorem duplicate_add_conflict
    (db : Store) (now content_id user_id : Z) (header : option string) :
  headers_get_int header = Some user_id ->
  user_id <> 0 ->
  (forall m e,
     get_movie db content_id = Some m ->
     query_entry db user_id "movie" content_id = Some e ->
     ProgressService.add_movie db now user_id content_id
     = Py.Raise (Py.ValueError "Pelicula ya esta en la watchlist.")
     /\ add_movie_to_watchlist now content_id header db
        = (mk_response 409 (JsonError "Pelicula ya esta en la watchlist."), db))
  /\ (forall s e,
        get_series db content_id = Some s ->
        query_entry db user_id "series" content_id = Some e ->
        ProgressService.add_series db now user_id content_id
        = Py.Raise (Py.ValueError "Serie ya esta en la watchlist.")
        /\ add_series_to_watchlist now content_id header db
           = (mk_response 409 (JsonError "Serie ya esta en la watchlist."), db)).
Proof.
  intros H NZ. split.
  - intros m e G Q.
    assert (A : ProgressService.add_movie db now user_id content_id
                = Py.Raise (Py.ValueError "Pelicula ya esta en la watchlist."))
      by (unfold ProgressService.add_movie; now rewrite G, Q).
    split; [exact A|].
    unfold add_movie_to_watchlist.
    rewrite (require_user_id_accepts _ _ _ _ H NZ).
    unfold add_movie_to_watchlist_view. now rewrite A.
  - intros s e G Q.
    assert (A : ProgressService.add_series db now user_id content_id
                = Py.Raise (Py.ValueError "Serie ya esta en la watchlist."))
      by (unfold ProgressService.add_series; now rewrite G, Q).
    split; [exact A|].
    unfold add_series_to_watchlist.
    rewrite (require_user_id_accepts _ _ _ _ H NZ).
    unfold add_series_to_watchlist_view. now rewrite A.
Qed.

Lemma duplicate_add_conflict_witness :
  ProgressService.add_series sample_db 200 7 1
  = Py.Raise (Py.ValueError "Serie ya esta en la watchlist.")
  /\ add_series_to_watchlist 200 1 (Some "7") sample_db
     = (mk_response 409 (JsonError "Serie ya esta en la watchlist."), sample_db).
Proof.
  destruct (duplicate_add_conflict sample_db 200 1 7 (Some "7")) as [_ S];
    [reflexivity|lia|].
  apply (S (Series.mk 1 "Dark" 2) sample_entry); reflexivity.
Defined.

(** The second of two calls in a row. *)
Lemma add_movie_twice (db db' : Store) (now now' u mid : Z)
    (d : WatchEntry.dict) :
  ProgressService.add_movie db now u mid = Py.Ok (db', d) ->
  add_movie_to_watchlist_view now' mid u db'
  = (mk_response 409 (JsonError "Pelicula ya esta en la watchlist."), db').
Proof.
  unfold ProgressService.add_movie.
  destruct (get_movie db mid) as [m|] eqn:G; [|discriminate].
  destruct (query_entry db u "movie" mid) eqn:Q; [discriminate|].
  cbn [insert_entry WatchEntry.init String.eqb Ascii.eqb Bool.eqb].
  intros [= <- _].
  unfold add_movie_to_watchlist_view, ProgressService.add_movie.
  unfold get_movie in *. cbn [movies set_watch_entries]. rewrite G.
  unfold query_entry in *. cbn [watch_entries set_watch_entries].
  rewrite find_app_none by exact Q.
  unfold entry_matches. cbn. now rewrite !Z.eqb_refl.
Qed.

Lemma add_series_twice (db db' : Store) (now now' u sid : Z)
    (d : WatchEntry.dict) :
  ProgressService.add_series db now u sid = Py.Ok (db', d) ->
  add_series_to_watchlist_view now' sid u db'
  = (mk_response 409 (JsonError "Serie ya esta en la watchlist."), db').
Proof.
  unfold ProgressService.add_series.
  destruct (get_series db sid) as [s|] eqn:G; [|discriminate].
  destruct (query_entry db u "series" sid) eqn:Q; [discriminate|].
  cbn [insert_entry WatchEntry.init String.eqb Ascii.eqb Bool.eqb].
  intros [= <- _].
  unfold add_series_to_watchlist_view, ProgressService.add_series.
  unfold get_series in *. cbn [series set_watch_entries]. rewrite G.
  unfold query_entry in *. cbn [watch_entries set_watch_entries].
  rewrite find_app_none by exact Q.
  unfold entry_matches. cbn. now rewrite !Z.eqb_refl.
Qed.

Example scenario_add_twice :
  map (fun r => code (fst r))
      [add_movie_to_watchlist 100 1 (Some "7") sample_db;
       add_movie_to_watchlist 101 1 (Some "7")
         (snd (add_movie_to_watchlist 100 1 (Some "7") sample_db));
       add_series_to_watchlist 101 1 (Some "7") sample_db;
       add_series_to_watchlist 101 9 (Some "7") sample_db]
  = [201; 409; 409; 404].
Proof. vm_compute. reflexivity. Qed.

(* ================================================================== *)
(** ** Not-found answers *)

Lemma contains_app_r (pat a b : string) :
  Py.contains pat b = true -> Py.contains pat (a ++ b) = true.
Proof.
  intros H. induction a as [|c a IH]; [exact H|].
  cbn [append Py.contains]. rewrite IH. apply orb_true_r.
Qed.

Lemma not_found_message (head : string) (n : Z) :
  Py.contains "no encontrada"
    (head ++ Py.str_of_int n ++ " no encontrada.") = true.
Proof.
  apply contains_app_r, contains_app_r. reflexivity.
Qed.

Lemma missing_series_message (n : Z) :
  Py.contains "no existe"
    ("La serie con id " ++ Py.str_of_int n ++ " no existe.") = true.
Proof.
  apply contains_app_r, contains_app_r. reflexivity.
Qed.

(* ================================================================== *)
(** ** Further properties of the progress update *)




(** X2.  An entry that is already watched stays watched under every update
    that carries no status: the update cannot fail, the payload's counter
    (clamped) and cursor are stored as they come, and the percentage
    stays 100.0 even when fewer episodes than the total are stored. *)
Theorem watched_entry_stays_watched
    (db : Store) (now user_id series_id : Z) (payload : Payload.t)
    (entry : WatchEntry.t) :
  query_entry db user_id "series" series_id = Some entry ->
  WatchEntry.status entry = "watched" ->
  Payload.status payload = None ->
  exists db' entry',
    ProgressService.update_series_progress db now user_id series_id payload
    = Py.Ok (db', WatchEntry.to_dict entry')
    /\ query_entry db' user_id "series" series_id = Some entry'
    /\ WatchEntry.status entry' = "watched"
    /\ WatchEntry.percentage_watched entry' = 10000
    /\ WatchEntry.watched_episodes entry'
       = match Payload.watched_episodes payload with
         | Some w =>
             Some (Z.max 0 (Z.min w (Py.or0 (WatchEntry.total_episodes entry))))
         | None => WatchEntry.watched_episodes entry
         end
    /\ WatchEntry.current_season entry'
       = match Payload.current_season payload with
         | Some v => Some v
         | None => WatchEntry.current_season entry
         end
    /\ WatchEntry.current_episode entry'
       = match Payload.current_episode payload with
         | Some v => Some v
         | None => WatchEntry.current_episode entry
         end.
Proof.
  intros Q W S.
  set (e1 := ProgressService.apply_cursor payload
               (ProgressService.apply_watched_episodes payload entry)).
  assert (W1 : WatchEntry.status e1 = "watched").
  { subst e1. unfold ProgressService.apply_cursor,
      ProgressService.apply_watched_episodes.
    destruct (Payload.watched_episodes payload),
      (Payload.current_season payload), (Payload.current_episode payload);
      exact W. }
  assert (U : ProgressService.update_entry db now payload entry = Py.Ok e1).
  { unfold ProgressService.update_entry, ProgressService.apply_status.
    rewrite S. cbn [Py.bind]. now apply recompute_skip. }
  destruct (update_series_progress_commit _ now _ _ payload _ _ Q U)
    as (db' & Run & Q' & _).
  exists db', e1. split; [exact Run|]. split; [exact Q'|].
  split; [exact W1|]. split.
  { unfold WatchEntry.percentage_watched. now rewrite W1. }
  subst e1. unfold ProgressService.apply_cursor,
    ProgressService.apply_watched_episodes.
  destruct (Payload.watched_episodes payload),
    (Payload.current_season payload), (Payload.current_episode payload);
    repeat split.
Qed.

Lemma watched_entry_stays_watched_witness :
  let done :=
    WatchEntry.mk (Some 1) 7 "series" 1 "watched" (Some 2) (Some 8)
                  (Some 18) (Some 18) (Some 100) (Some 101) None (Some 1) in
  exists db' entry',
    ProgressService.update_series_progress
      (set_watch_entries [done] sample_catalog) 102 7 1
      (Payload.mk (Some 5) None None None [])
    = Py.Ok (db', WatchEntry.to_dict entry')
    /\ query_entry db' 7 "series" 1 = Some entry'
    /\ WatchEntry.status entry' = "watched"
    /\ WatchEntry.percentage_watched entry' = 10000
    /\ WatchEntry.watched_episodes entry' = Some (Z.max 0 (Z.min 5 18))
    /\ WatchEntry.current_season entry' = Some 2
    /\ WatchEntry.current_episode entry' = Some 8.
Proof.
  intros done.
  apply (watched_entry_stays_watched (set_watch_entries [done] sample_catalog)
           102 7 1 (Payload.mk (Some 5) None None None []) done);
    reflexivity.
Defined.

Lemma find_replace_first_other (p q : WatchEntry.t -> bool)
    (e' : WatchEntry.t) (l : list WatchEntry.t) :
  (forall x, p x = true -> q x = false) -> q e' = false ->
  find q (replace_first p e' l) = find q l.
Proof.
  intros D Q. induction l as [|x xs IH]; [reflexivity|].
  cbn [replace_first]. destruct (p x) eqn:P; cbn [find].
  - now rewrite Q, (D x P).
  - now rewrite IH.
Qed.

Lemma replace_first_length (p : WatchEntry.t -> bool) (e' : WatchEntry.t)
    (l : list WatchEntry.t) :
  List.length (replace_first p e' l) = List.length l.
Proof.
  induction l as [|x xs IH]; [reflexivity|].
  cbn [replace_first]. destruct (p x); cbn [List.length]; congruence.
Qed.

Lemma entry_matches_other (u u' : Z) (ct ct' : string) (cid cid' : Z)
    (x : WatchEntry.t) :
  (u', ct', cid') <> (u, ct, cid) ->
  entry_matches u ct cid x = true -> entry_matches u' ct' cid' x = false.
Proof.
  unfold entry_matches. intros NE M.
  apply andb_prop in M as [M M3]. apply andb_prop in M as [M1 M2].
  apply Z.eqb_eq in M1, M3. apply String.eqb_eq in M2.
  destruct (Z.eqb_spec (WatchEntry.user_id x) u'); [|reflexivity].
  destruct (String.eqb_spec (WatchEntry.content_type x) ct'); [|reflexivity].
  destruct (Z.eqb_spec (WatchEntry.content_id x) cid'); [|reflexivity].
  exfalso. apply NE. congruence.
Qed.

(** X3.  A progress update touches one entry only: the catalog, the number of
    entries and every entry of another user or content stay as they were,
    and the updated entry keeps its identity and its total. *)
Theorem update_touches_one_entry
    (db db' : Store) (now user_id series_id : Z) (payload : Payload.t)
    (d : WatchEntry.dict) :
  ProgressService.update_series_progress db now user_id series_id payload
  = Py.Ok (db', d) ->
  movies db' = movies db /\ series db' = series db /\ seasons db' = seasons db
  /\ List.length (watch_entries db') = List.length (watch_entries db)
  /\ (forall u ct cid,
        (u, ct, cid) <> (user_id, "series", series_id) ->
        query_entry db' u ct cid = query_entry db u ct cid)
  /\ exists e e',
       query_entry db user_id "series" series_id = Some e
       /\ query_entry db' user_id "series" series_id = Some e'
       /\ d = WatchEntry.to_dict e'
       /\ same_keys e e'.
Proof.
  intros R.
  destruct (update_series_progress_inv _ _ _ _ _ _ _ R)
    as (e & e1 & Q & U & -> & Q1 & M & S & SS & W).
  pose proof (update_entry_keys _ _ _ _ _ U) as K.
  repeat (split; [assumption|]).
  split; [rewrite W; apply replace_first_length|]. split.
  - intros u ct cid NE. unfold query_entry. rewrite W.
    apply find_replace_first_other.
    + intros x. now apply entry_matches_other.
    + destruct K as (_ & K1 & K2 & K3 & _).
      destruct (query_entry_matches _ _ _ _ _ Q) as (E1 & E2 & E3 & _).
      apply (entry_matches_other user_id u "series" ct series_id cid); [exact NE|].
      unfold entry_matches. rewrite K1, K2, K3, E1, E2, E3.
      now rewrite !Z.eqb_refl, String.eqb_refl.
  - exists e, e1. auto.
Qed.

Lemma update_touches_one_entry_witness :
  let db' :=
    set_watch_entries
      [WatchEntry.mk (Some 1) 7 "series" 1 "watching" (Some 1) (Some 1)
                     (Some 5) (Some 18) (Some 100) (Some 100) None (Some 1)]
      sample_catalog in
  movies db' = movies sample_db /\ series db' = series sample_db
  /\ seasons db' = seasons sample_db
  /\ List.length (watch_entries db') = List.length (watch_entries sample_db)
  /\ (forall u ct cid,
        (u, ct, cid) <> (7, "series", 1) ->
        query_entry db' u ct cid = query_entry sample_db u ct cid)
  /\ exists e e',
       query_entry sample_db 7 "series" 1 = Some e
       /\ query_entry db' 7 "series" 1 = Some e'
       /\ WatchEntry.mk_dict (Some 1) 7 "series" 1 "watching" (Some 1) (Some 1)
                             (Some 5) (Some 18) 2778 (Some 100)
          = WatchEntry.to_dict e'
       /\ same_keys e e'.
Proof.
  intros db'.
  apply (update_touches_one_entry sample_db db' 101 7 1
           (Payload.mk (Some 5) None None None [])).
  vm_compute. reflexivity.
Defined.

(* ================================================================== *)
(** ** What the routes answer before any write *)

(** X4.  The progress route validates before it looks anything up: an empty
    payload is answered 400, and a payload for a series the user does not
    track is answered 404; the store is unchanged in both cases. *)
Theorem update_route_rejections
    (db : Store) (now series_id user_id : Z) (payload : Payload.t)
    (header : option string) :
  headers_get_int header = Some user_id ->
  user_id <> 0 ->
  (Payload.is_empty payload = true ->
   update_series_progress now series_id payload header db
   = (mk_response 400 (JsonError "Payload vacio"), db))
  /\ (Payload.is_empty payload = false ->
      query_entry db user_id "series" series_id = None ->
      update_series_progress now series_id payload header db
      = (mk_response 404
           (JsonError "Entrada no encontrada en la watchlist."), db)).
Proof.
  intros H NZ. unfold update_series_progress.
  rewrite (require_user_id_accepts _ _ _ _ H NZ).
  unfold update_series_progress_view. split.
  - now intros ->.
  - intros -> Q. unfold ProgressService.update_series_progress. now rewrite Q.
Qed.

Lemma update_route_rejections_witness :
  update_series_progress 101 1 (Payload.mk None None None None [])
                         (Some "7") sample_db
  = (mk_response 400 (JsonError "Payload vacio"), sample_db)
  /\ update_series_progress 101 2 (Payload.mk (Some 3) None None None [])
                            (Some "7") sample_db
     = (mk_response 404
          (JsonError "Entrada no encontrada en la watchlist."), sample_db).
Proof.
  split.
  - destruct (update_route_rejections sample_db 101 1 7
                (Payload.mk None None None None []) (Some "7")) as [E _];
      [reflexivity|lia|].
    apply E. reflexivity.
  - destruct (update_route_rejections sample_db 101 2 7
                (Payload.mk (Some 3) None None None []) (Some "7")) as [_ N];
      [reflexivity|lia|].
    apply N; reflexivity.
Defined.

(** X5.  Adding a movie or a series that is not in the catalog is answered 404
    for every identifier, and nothing is written; the check comes before
    the duplicate check. *)
Theorem add_unknown_content_not_found
    (db : Store) (now content_id user_id : Z) (header : option string) :
  headers_get_int header = Some user_id ->
  user_id <> 0 ->
  (get_movie db content_id = None ->
   exists msg,
     add_movie_to_watchlist now content_id header db
     = (mk_response 404 (JsonError msg), db))
  /\ (get_series db content_id = None ->
      exists msg,
        add_series_to_watchlist now content_id header db
        = (mk_response 404 (JsonError msg), db)).
Proof.
  intros H NZ. split; intros G.
  - unfold add_movie_to_watchlist.
    rewrite (require_user_id_accepts _ _ _ _ H NZ).
    unfold add_movie_to_watchlist_view, ProgressService.add_movie.
    rewrite G, not_found_message. eauto.
  - unfold add_series_to_watchlist.
    rewrite (require_user_id_accepts _ _ _ _ H NZ).
    unfold add_series_to_watchlist_view, ProgressService.add_series.
    rewrite G, not_found_message. eauto.
Qed.

Lemma add_unknown_content_not_found_witness :
  (exists msg,
     add_movie_to_watchlist 100 9 (Some "7") sample_db
     = (mk_response 404 (JsonError msg), sample_db))
  /\ (exists msg,
        add_series_to_watchlist 100 9 (Some "7") sample_db
        = (mk_response 404 (JsonError msg), sample_db)).
Proof.
  destruct (add_unknown_content_not_found sample_db 100 9 7 (Some "7"))
    as [M S]; [reflexivity|lia|].
  split; [apply M|apply S]; reflexivity.
Defined.

(** X6.  For an existing movie that the user does not track yet, [add_movie]
    appends one entry: pending, one episode in total, none watched, the
    cursor at the column defaults, linked to the movie and to no series;
    its percentage is 0.0 and the route answers 201. *)
Theorem add_movie_creates_entry
    (db : Store) (now user_id movie_id : Z) (header : option string)
    (m : Movie.t) :
  headers_get_int header = Some user_id ->
  user_id <> 0 ->
  get_movie db movie_id = Some m ->
  query_entry db user_id "movie" movie_id = None ->
  exists db' row,
    add_movie_to_watchlist now movie_id header db
    = (mk_response 201 (JsonEntry (WatchEntry.to_dict row)), db')
    /\ watch_entries db' = (watch_entries db ++ [row])%list
    /\ movies db' = movies db /\ series db' = series db
    /\ seasons db' = seasons db
    /\ query_entry db' user_id "movie" movie_id = Some row
    /\ WatchEntry.status row = "pending"
    /\ WatchEntry.total_episodes row = Some 1
    /\ WatchEntry.watched_episodes row = Some 0
    /\ WatchEntry.current_season row = Some 1
    /\ WatchEntry.current_episode row = Some 1
    /\ WatchEntry.movie_content_id row = Some movie_id
    /\ WatchEntry.series_content_id row = None
    /\ WatchEntry.created_at row = Some now
    /\ WatchEntry.percentage_watched row = 0.
Proof.
  intros H NZ G Q. unfold add_movie_to_watchlist.
  rewrite (require_user_id_accepts _ _ _ _ H NZ).
  unfold add_movie_to_watchlist_view, ProgressService.add_movie.
  rewrite G, Q.
  cbn [insert_entry WatchEntry.init String.eqb Ascii.eqb Bool.eqb].
  eexists _, _. split; [reflexivity|]. split; [reflexivity|].
  repeat (split; [reflexivity|]).
  split; [|repeat split].
  unfold query_entry in *. cbn [watch_entries set_watch_entries].
  rewrite find_app_none by exact Q.
  unfold entry_matches. cbn. now rewrite !Z.eqb_refl.
Qed.

Lemma add_movie_creates_entry_witness :
  exists db' row,
    add_movie_to_watchlist 100 1 (Some "7") sample_catalog
    = (mk_response 201 (JsonEntry (WatchEntry.to_dict row)), db')
    /\ watch_entries db' = (watch_entries sample_catalog ++ [row])%list
    /\ movies db' = movies sample_catalog /\ series db' = series sample_catalog
    /\ seasons db' = seasons sample_catalog
    /\ query_entry db' 7 "movie" 1 = Some row
    /\ WatchEntry.status row = "pending"
    /\ WatchEntry.total_episodes row = Some 1
    /\ WatchEntry.watched_episodes row = Some 0
    /\ WatchEntry.current_season row = Some 1
    /\ WatchEntry.current_episode row = Some 1
    /\ WatchEntry.movie_content_id row = Some 1
    /\ WatchEntry.series_content_id row = None
    /\ WatchEntry.created_at row = Some 100
    /\ WatchEntry.percentage_watched row = 0.
Proof.
  apply (add_movie_creates_entry sample_catalog 100 7 1 (Some "7")
           (Movie.mk 1 "Alien")); [reflexivity|lia|reflexivity|reflexivity].
Defined.

(* ================================================================== *)
(** ** Adding a series and then reporting progress *)







(* ================================================================== *)
(** ** Invariants of the watchlist *)

Lemma add_movie_row (db db' : Store) (now u mid : Z) (d : WatchEntry.dict) :
  ProgressService.add_movie db now u mid = Py.Ok (db', d) ->
  exists row,
    row = WatchEntry.mk (Some (fresh_id (entry_ids db))) u "movie" mid
            "pending" (Some 1) (Some 1) (Some 0) (Some 1)
            (Some now) (Some now) (Some mid) None
    /\ d = WatchEntry.to_dict row
    /\ query_entry db u "movie" mid = None
    /\ watch_entries db' = (watch_entries db ++ [row])%list.
Proof.
  unfold ProgressService.add_movie.
  destruct (get_movie db mid); [|discriminate].
  destruct (query_entry db u "movie" mid) eqn:Q; [discriminate|].
  cbn [insert_entry WatchEntry.init String.eqb Ascii.eqb Bool.eqb].
  intros [= <- <-]. eexists. repeat split.
Qed.

Lemma add_series_entries (db db' : Store) (now u sid : Z) (d : WatchEntry.dict) :
  ProgressService.add_series db now u sid = Py.Ok (db', d) ->
  exists row,
    entry_key row = (u, "series", sid)
    /\ query_entry db u "series" sid = None
    /\ watch_entries db' = (watch_entries db ++ [row])%list.
Proof.
  unfold ProgressService.add_series.
  destruct (get_series db sid); [|discriminate].
  destruct (query_entry db u "series" sid) eqn:Q; [discriminate|].
  cbn [insert_entry WatchEntry.init String.eqb Ascii.eqb Bool.eqb].
  intros [= <- _]. eexists.
  split; [|split; [reflexivity|reflexivity]]. reflexivity.
Qed.







(** X10.  No watchlist operation ever changes a movie entry: in a reachable
    store every movie entry is still pending, with one episode in total,
    none watched, and 0.0. *)
Theorem reachable_movie_entries_pending (db : Store) (e : WatchEntry.t) :
  reachable db ->
  In e (watch_entries db) ->
  WatchEntry.content_type e = "movie" ->
  WatchEntry.status e = "pending"
  /\ WatchEntry.total_episodes e = Some 1
  /\ WatchEntry.watched_episodes e = Some 0
  /\ WatchEntry.current_season e = Some 1
  /\ WatchEntry.current_episode e = Some 1
  /\ WatchEntry.movie_content_id e = Some (WatchEntry.content_id e)
  /\ WatchEntry.percentage_watched e = 0.
Proof.
  intros R. revert e.
  induction R as [db E|db db' _ IH E|db now u mid db' d _ IH A
                  |db now u sid db' d _ IH A|db now u sid p db' d _ IH R];
    intros x I CT.
  - rewrite E in I. destruct I.
  - rewrite E in I. auto.
  - destruct (add_movie_row _ _ _ _ _ _ A) as (row & Row & _ & _ & W).
    rewrite W in I. apply in_app_or in I as [I|[<-|[]]]; [auto|].
    subst row. repeat split.
  - destruct (add_series_entries _ _ _ _ _ _ A) as (row & K & _ & W).
    rewrite W in I. apply in_app_or in I as [I|[<-|[]]]; [auto|].
    unfold entry_key in K. congruence.
  - destruct (update_series_progress_inv _ _ _ _ _ _ _ R)
      as (e & e1 & Q & U & _ & _ & _ & _ & _ & W).
    rewrite W in I. apply in_replace_first in I as [->|I]; [|auto].
    destruct (update_entry_keys _ _ _ _ _ U) as (_ & _ & K2 & _).
    destruct (query_entry_matches _ _ _ _ _ Q) as (_ & E2 & _).
    congruence.
Qed.

Lemma reachable_movie_entries_pending_witness :
  let row :=
    WatchEntry.mk (Some 1) 7 "movie" 1 "pending" (Some 1) (Some 1) (Some 0)
                  (Some 1) (Some 100) (Some 100) (Some 1) None in
  WatchEntry.status row = "pending"
  /\ WatchEntry.total_episodes row = Some 1
  /\ WatchEntry.watched_episodes row = Some 0
  /\ WatchEntry.current_season row = Some 1
  /\ WatchEntry.current_episode row = Some 1
  /\ WatchEntry.movie_content_id row = Some (WatchEntry.content_id row)
  /\ WatchEntry.percentage_watched row = 0.
Proof.
  intros row.
  apply (reachable_movie_entries_pending
           (set_watch_entries [row] sample_catalog) row).
  - apply (reach_add_movie sample_catalog 100 7 1 _ (WatchEntry.to_dict row)).
    + apply reach_start. reflexivity.
    + reflexivity.
  - simpl. left. reflexivity.
  - reflexivity.
Defined.

(* ================================================================== *)
(** ** The model methods on their own *)

(** X11.  [mark_as_watched] never raises ([next] always finds the season with
    the highest number), sets the status and the timestamp, and keeps the
    identity and the total; on a movie it sets the counter to 1, and on an
    entry of any other content type that is not a series it leaves the
    counter and the cursor alone. *)
Theorem mark_as_watched_total
    (sc : option (list Season.t)) (now : Z) (e : WatchEntry.t) :
  exists e',
    WatchEntry.mark_as_watched sc now e = Py.Ok e'
    /\ WatchEntry.status e' = "watched"
    /\ WatchEntry.updated_at e' = Some now
    /\ WatchEntry.percentage_watched e' = 10000
    /\ same_keys e e'
    /\ (WatchEntry.content_type e = "movie" ->
        WatchEntry.watched_episodes e' = Some 1
        /\ WatchEntry.current_season e' = WatchEntry.current_season e
        /\ WatchEntry.current_episode e' = WatchEntry.current_episode e)
    /\ (WatchEntry.content_type e <> "movie" ->
        WatchEntry.content_type e <> "series" ->
        WatchEntry.watched_episodes e' = WatchEntry.watched_episodes e
        /\ WatchEntry.current_season e' = WatchEntry.current_season e
        /\ WatchEntry.current_episode e' = WatchEntry.current_episode e).
Proof.
  eexists. split; [apply mark_as_watched_eq|].
  cbn [WatchEntry.status WatchEntry.updated_at WatchEntry.set_updated_at
       WatchEntry.watched_episodes WatchEntry.current_season
       WatchEntry.current_episode].
  split; [apply terminal_status|]. split; [reflexivity|].
  split.
  { unfold WatchEntry.percentage_watched.
    cbn [WatchEntry.status WatchEntry.set_updated_at].
    now rewrite terminal_status. }
  split.
  { eapply same_keys_trans; [apply terminal_keys|repeat split]. }
  unfold terminal.
  cbn [WatchEntry.content_type WatchEntry.set_status WatchEntry.total_episodes].
  split.
  - intros ->. cbn. repeat split.
  - intros NM NS. apply String.eqb_neq in NM, NS. rewrite NM, NS.
    cbn. repeat split.
Qed.




(* ================================================================== *)
(** ** Seasons *)

Lemma query_season_none (db : Store) (sid n : Z) :
  query_season db sid n = None ->
  ~ In (sid, n) (map season_key (seasons db)).
Proof.
  unfold query_season. intros F I. apply in_map_iff in I as (x & K & I).
  apply (find_none _ _ F) in I. unfold season_key in K.
  injection K as K1 K2. now rewrite K1, K2, !Z.eqb_refl in I.
Qed.

Lemma add_season_inv (db db' : Store) (sid : Z) (p : SeasonPayload.t)
    (row : Season.t) :
  SeriesService.add_season db sid p = Py.Ok (db', row) ->
  exists s n c,
    get_series db sid = Some s
    /\ SeasonPayload.number p = Some n
    /\ SeasonPayload.episodes_count p = Some c
    /\ query_season db sid n = None
    /\ row = Season.mk (fresh_id (map Season.id (seasons db))) sid n c
    /\ db' = set_seasons (seasons db ++ [row]) db.
Proof.
  unfold SeriesService.add_season.
  destruct (get_series db sid) as [s|]; [|discriminate].
  destruct (SeasonPayload.number p) as [n|]; [|discriminate].
  destruct (SeasonPayload.episodes_count p) as [c|]; [|discriminate].
  destruct (query_season db sid n) eqn:Q; [discriminate|].
  cbn. intros [= <- <-]. exists s, n, c.
  repeat (split; [first [reflexivity|exact Q]|]). reflexivity.
Qed.


(** X13.  [add_season] keeps the unique constraint itself: if no two seasons of
    the store share series and number, none do after a season is added. *)
Theorem add_season_keeps_unique
    (db db' : Store) (series_id : Z) (payload : SeasonPayload.t)
    (row : Season.t) :
  NoDup (map season_key (seasons db)) ->
  SeriesService.add_season db series_id payload = Py.Ok (db', row) ->
  NoDup (map season_key (seasons db')).
Proof.
  intros U A.
  destruct (add_season_inv _ _ _ _ _ A) as (s & n & c & _ & _ & _ & Q & R & ->).
  cbn [seasons set_seasons]. rewrite map_app.
  apply NoDup_app; [exact U|repeat constructor; auto|].
  intros k I [<-|[]]. subst row. now apply (query_season_none _ _ _ Q).
Qed.

Lemma add_season_keeps_unique_witness :
  NoDup (map season_key
           (seasons (set_seasons
                       (seasons sample_catalog ++ [Season.mk 3 1 3 6])
                       sample_catalog))).
Proof.
  apply (add_season_keeps_unique sample_catalog _ 1
           (SeasonPayload.mk (Some 3) (Some 6)) (Season.mk 3 1 3 6)).
  - repeat constructor; simpl; intuition discriminate.
  - reflexivity.
Defined.



(** X15.  The season route checks the series before the payload: a missing
    series is answered 404 for every identifier and payload, an existing
    series with [number] or [episodes_count] missing is answered 400, and
    the store is unchanged in both cases. *)
Theorem add_season_rejections
    (db : Store) (series_id : Z) (payload : SeasonPayload.t) :
  (get_series db series_id = None ->
   exists msg,
     add_season series_id payload db = (mk_response 404 (JsonError msg), db))
  /\ (forall s,
        get_series db series_id = Some s ->
        SeasonPayload.number payload = None
        \/ SeasonPayload.episodes_count payload = None ->
        add_season series_id payload db
        = (mk_response 400
             (JsonError
                "Los campos 'number' y 'episodes_count' son obligatorios."),
           db)).
Proof.
  unfold add_season, SeriesService.add_season. split.
  - intros ->. rewrite missing_series_message. eauto.
  - intros s -> [N|C].
    + now rewrite N.
    + rewrite C. now destruct (SeasonPayload.number payload).
Qed.

Lemma add_season_rejections_witness :
  (exists msg,
     add_season 9 (SeasonPayload.mk None None) sample_catalog
     = (mk_response 404 (JsonError msg), sample_catalog))
  /\ add_season 1 (SeasonPayload.mk (Some 3) None) sample_catalog
     = (mk_response 400
          (JsonError
             "Los campos 'number' y 'episodes_count' son obligatorios."),
        sample_catalog).
Proof.
  destruct (add_season_rejections sample_catalog 9 (SeasonPayload.mk None None))
    as [NF _].
  destruct (add_season_rejections sample_catalog 1
              (SeasonPayload.mk (Some 3) None)) as [_ BAD].
  split; [apply NF; reflexivity|].
  apply (BAD (Series.mk 1 "Dark" 2)); [reflexivity|right; reflexivity].
Defined.

(* ================================================================== *)
(** ** [src/api/movies.py], [src/api/series.py]: deleting from the catalog *)

Lemma update_entry_links (db : Store) (now : Z) (p : Payload.t)
    (e e1 : WatchEntry.t) :
  ProgressService.update_entry db now p e = Py.Ok e1 ->
  WatchEntry.movie_content_id e1 = WatchEntry.movie_content_id e.
Proof.
  unfold ProgressService.update_entry.
  set (e0 := ProgressService.apply_cursor p
               (ProgressService.apply_watched_episodes p e)).
  assert (M0 : WatchEntry.movie_content_id e0 = WatchEntry.movie_content_id e).
  { subst e0. unfold ProgressService.apply_cursor,
      ProgressService.apply_watched_episodes.
    destruct (Payload.watched_episodes p), (Payload.current_season p),
      (Payload.current_episode p); reflexivity. }
  assert (MT : forall sc x, WatchEntry.movie_content_id (terminal sc x)
                            = WatchEntry.movie_content_id x).
  { intros sc x. unfold terminal.
    cbn [WatchEntry.content_type WatchEntry.set_status
         WatchEntry.total_episodes].
    destruct (WatchEntry.content_type x =? "movie"); [reflexivity|].
    destruct ((WatchEntry.content_type x =? "series")
              && Py.truthy (WatchEntry.total_episodes x)); [|reflexivity].
    destruct sc as [l|]; [destruct (last_season_row l)|]; reflexivity. }
  unfold ProgressService.apply_status.
  destruct (Payload.status p) as [s|].
  - destruct (s =? "watched").
    + rewrite mark_as_watched_eq. cbn [Py.bind]. intros R.
      apply recompute_inv in R as [[_ ->]|[(_ & _ & ->)|(_ & _ & ->)]];
        cbn [WatchEntry.movie_content_id WatchEntry.set_updated_at
             WatchEntry.set_status]; rewrite ?MT;
        cbn [WatchEntry.movie_content_id WatchEntry.set_updated_at];
        rewrite ?MT; exact M0.
    + cbn [Py.bind]. intros R.
      apply recompute_inv in R as [[_ ->]|[(_ & _ & ->)|(_ & _ & ->)]];
        cbn [WatchEntry.movie_content_id WatchEntry.set_updated_at
             WatchEntry.set_status]; rewrite ?MT; exact M0.
  - cbn [Py.bind]. intros R.
    apply recompute_inv in R as [[_ ->]|[(_ & _ & ->)|(_ & _ & ->)]];
      cbn [WatchEntry.movie_content_id WatchEntry.set_updated_at
           WatchEntry.set_status]; rewrite ?MT; exact M0.
Qed.

Lemma reachable_linked (db : Store) (e : WatchEntry.t) :
  reachable db -> In e (watch_entries db) -> linked e.
Proof.
  intros R. revert e.
  induction R as [db E|db db' _ IH E|db now u mid db' d _ IH A
                  |db now u sid db' d _ IH A|db now u sid p db' d _ IH R];
    intros x I.
  - rewrite E in I. destruct I.
  - rewrite E in I. auto.
  - destruct (add_movie_row _ _ _ _ _ _ A) as (row & Row & _ & _ & W).
    rewrite W in I. apply in_app_or in I as [I|[<-|[]]]; [auto|].
    subst row. split; reflexivity.
  - destruct (add_series_entries _ _ _ _ _ _ A) as (row & _ & _ & W).
    rewrite W in I. apply in_app_or in I as [I|[<-|[]]]; [auto|].
    revert W. unfold ProgressService.add_series in A.
    destruct (get_series db sid); [|discriminate].
    destruct (query_entry db u "series" sid); [discriminate|].
    cbn [insert_entry WatchEntry.init String.eqb Ascii.eqb Bool.eqb] in A.
    injection A as <- _. cbn [watch_entries set_watch_entries].
    intros W. apply app_inv_head in W. injection W as <-.
    split; reflexivity.
  - destruct (update_series_progress_inv _ _ _ _ _ _ _ R)
      as (e & e1 & Q & U & _ & _ & _ & _ & _ & W).
    rewrite W in I. apply in_replace_first in I as [->|I]; [|auto].
    destruct (query_entry_matches _ _ _ _ _ Q) as (_ & _ & _ & I0).
    destruct (IH e I0) as [L1 L2].
    destruct (update_entry_keys _ _ _ _ _ U) as (_ & _ & K2 & K3 & _ & K6).
    pose proof (update_entry_links _ _ _ _ _ U) as KM.
    unfold linked. rewrite K2, K3, K6, KM. split; assumption.
Qed.

(** X16.  The two foreign keys of an entry behave as a tagged reference: in a
    reachable store every entry has content type movie or series, and of
    [movie_content_id] and [series_content_id] exactly the one of its type
    is set, to its [content_id]. *)
Theorem reachable_entries_linked (db : Store) (e : WatchEntry.t) :
  reachable db ->
  In e (watch_entries db) ->
  (WatchEntry.content_type e = "movie"
   \/ WatchEntry.content_type e = "series")
  /\ linked e.
Proof.
  intros R I. split; [|now apply (reachable_linked db)].
  revert e I.
  induction R as [db E|db db' _ IH E|db now u mid db' d _ IH A
                  |db now u sid db' d _ IH A|db now u sid p db' d _ IH R];
    intros x I.
  - rewrite E in I. destruct I.
  - rewrite E in I. auto.
  - destruct (add_movie_row _ _ _ _ _ _ A) as (row & Row & _ & _ & W).
    rewrite W in I. apply in_app_or in I as [I|[<-|[]]]; [auto|].
    subst row. now left.
  - destruct (add_series_entries _ _ _ _ _ _ A) as (row & Row & _ & W).
    rewrite W in I. apply in_app_or in I as [I|[<-|[]]]; [auto|].
    unfold entry_key in Row. injection Row as _ CT _. now right.
  - destruct (update_series_progress_inv _ _ _ _ _ _ _ R)
      as (e & e1 & Q & U & _ & _ & _ & _ & _ & W).
    rewrite W in I. apply in_replace_first in I as [->|I]; [|auto].
    destruct (query_entry_matches _ _ _ _ _ Q) as (_ & _ & _ & I0).
    destruct (update_entry_keys _ _ _ _ _ U) as (_ & _ & K2 & _).
    rewrite K2. auto.
Qed.

Lemma reachable_entries_linked_witness :
  (WatchEntry.content_type sample_entry = "movie"
   \/ WatchEntry.content_type sample_entry = "series")
  /\ linked sample_entry.
Proof.
  apply (reachable_entries_linked sample_db sample_entry).
  - apply (reach_add_series sample_catalog 100 7 1 sample_db
             (WatchEntry.to_dict sample_entry)).
    + apply reach_start. reflexivity.
    + reflexivity.
  - simpl. left. reflexivity.
Defined.









Example scenario_delete_series :
  delete_series 1 sample_db
  = ((204, NoContent), mk_store (movies sample_db) [] [] []).
Proof. vm_compute. reflexivity. Qed.

(* ================================================================== *)
(** ** [ProgressService.list_watchlist] *)

Lemma insert_desc_perm (e : WatchEntry.t) (l : list WatchEntry.t) :
  Permutation (insert_desc e l) (e :: l).
Proof.
  induction l as [|x xs IH]; cbn [insert_desc]; [reflexivity|].
  destruct (updated_le x e); [reflexivity|].
  rewrite IH. apply perm_swap.
Qed.

Lemma order_by_updated_desc_perm (l : list WatchEntry.t) :
  Permutation (order_by_updated_desc l) l.
Proof.
  induction l as [|x xs IH]; [reflexivity|].
  cbn [order_by_updated_desc fold_right].
  rewrite insert_desc_perm. now constructor.
Qed.

Lemma updated_le_total (a b : WatchEntry.t) :
  updated_le a b = false -> updated_le b a = true.
Proof.
  unfold updated_le.
  destruct (WatchEntry.updated_at a), (WatchEntry.updated_at b);
    try discriminate; try reflexivity.
  intros H. apply Z.leb_gt in H. apply Z.leb_le. lia.
Qed.

Lemma insert_desc_sorted (e : WatchEntry.t) (l : list WatchEntry.t) :
  Sorted (fun a b => updated_le b a = true) l ->
  Sorted (fun a b => updated_le b a = true) (insert_desc e l).
Proof.
  induction 1 as [|x xs S IH H]; cbn [insert_desc].
  - repeat constructor.
  - destruct (updated_le x e) eqn:E.
    + repeat constructor; assumption.
    + constructor; [exact IH|].
      destruct xs as [|y ys]; cbn [insert_desc].
      * constructor. now apply updated_le_total.
      * destruct (updated_le y e); constructor;
          [now apply updated_le_total|now inversion H].
Qed.

Lemma order_by_updated_desc_sorted (l : list WatchEntry.t) :
  Sorted (fun a b => updated_le b a = true) (order_by_updated_desc l).
Proof.
  induction l as [|x xs IH]; cbn [order_by_updated_desc fold_right];
    [constructor|].
  apply insert_desc_sorted, IH.
Qed.

(** X19.  The watchlist of a user holds the entries of that user, all of them
    and no other, each once, serialised with its percentage, the most
    recently updated first. *)
Theorem list_watchlist_spec (db : Store) (user_id : Z) :
  exists entries,
    ProgressService.list_watchlist db user_id = map WatchEntry.to_dict entries
    /\ Permutation entries
         (filter (fun e => WatchEntry.user_id e =? user_id)%Z
                 (watch_entries db))
    /\ Sorted (fun a b => updated_le b a = true) entries
    /\ (forall e, In e entries <->
                  In e (watch_entries db) /\ WatchEntry.user_id e = user_id)
    /\ (forall d, In d (ProgressService.list_watchlist db user_id) ->
                  WatchEntry.d_user_id d = user_id).
Proof.
  set (mine := filter (fun e => WatchEntry.user_id e =? user_id)%Z
                      (watch_entries db)).
  assert (P : Permutation (order_by_updated_desc mine) mine)
    by apply order_by_updated_desc_perm.
  assert (M : forall e, In e (order_by_updated_desc mine) <->
                        In e (watch_entries db)
                        /\ WatchEntry.user_id e = user_id).
  { intros e. split.
    - intros I. apply (Permutation_in _ P) in I.
      apply filter_In in I as [I E]. apply Z.eqb_eq in E. auto.
    - intros [I E]. apply (Permutation_in _ (Permutation_sym P)).
      apply filter_In. split; [exact I|now apply Z.eqb_eq]. }
  exists (order_by_updated_desc mine). split; [reflexivity|].
  split; [exact P|]. split.
  - apply order_by_updated_desc_sorted.
  - split; [exact M|].
    intros d I. unfold ProgressService.list_watchlist in I. fold mine in I.
    apply in_map_iff in I as (e & <- & I). apply M in I as [_ E]. exact E.
Qed.

Example scenario_list_watchlist :
  let e1 := WatchEntry.mk (Some 1) 7 "series" 1 "watching" (Some 1) (Some 1)
              (Some 5) (Some 18) (Some 100) (Some 100) None (Some 1) in
  let e2 := WatchEntry.mk (Some 2) 8 "movie" 1 "pending" (Some 1) (Some 1)
              (Some 0) (Some 1) (Some 110) (Some 110) (Some 1) None in
  let e3 := WatchEntry.mk (Some 3) 7 "movie" 1 "pending" (Some 1) (Some 1)
              (Some 0) (Some 1) (Some 120) (Some 120) (Some 1) None in
  map WatchEntry.d_id
      (ProgressService.list_watchlist
         (set_watch_entries [e1; e2; e3] sample_catalog) 7)
  = [Some 3; Some 1].
Proof. reflexivity. Qed.

(* ================================================================== *)
(** ** Leaving the watched status; seasons added after the entry *)

(** X20.  A payload that carries a status other than watched and a counter
    below the total always ends in watching or pending, also on an
    entry that was watched: the status word itself is not stored, the
    status follows the clamped counter. *)
Theorem update_below_total
    (db : Store) (now user_id series_id total k : Z) (word : string)
    (payload : Payload.t) (entry : WatchEntry.t) :
  query_entry db user_id "series" series_id = Some entry ->
  WatchEntry.total_episodes entry = Some total ->
  Payload.status payload = Some word ->
  word <> "watched" ->
  Payload.watched_episodes payload = Some k ->
  k < total ->
  exists db' entry',
    ProgressService.update_series_progress db now user_id series_id payload
    = Py.Ok (db', WatchEntry.to_dict entry')
    /\ query_entry db' user_id "series" series_id = Some entry'
    /\ WatchEntry.watched_episodes entry' = Some (Z.max 0 k)
    /\ WatchEntry.status entry'
       = (if (0 <? k)%Z then "watching" else "pending").
Proof.
  intros Q T S NW W L.
  set (e0 := ProgressService.apply_cursor payload
               (ProgressService.apply_watched_episodes payload entry)).
  assert (W0 : WatchEntry.watched_episodes e0 = Some (Z.max 0 k)).
  { subst e0. unfold ProgressService.apply_cursor,
      ProgressService.apply_watched_episodes. rewrite W, T. cbn [Py.or0].
    destruct (Payload.current_season payload),
      (Payload.current_episode payload); cbn; f_equal; lia. }
  assert (T0 : WatchEntry.total_episodes e0 = Some total).
  { assert (K : same_keys entry e0).
    { eapply same_keys_trans;
        [apply apply_watched_episodes_keys|apply apply_cursor_keys]. }
    destruct K as (_ & _ & _ & _ & -> & _). exact T. }
  set (y := WatchEntry.set_status word e0).
  assert (F : falls_short y).
  { left. exists total. split; [exact T0|].
    cbn [y WatchEntry.watched_episodes WatchEntry.set_status].
    rewrite W0. cbn. lia. }
  assert (U : ProgressService.update_entry db now payload entry
              = Py.Ok (WatchEntry.set_status (partial_status y) y)).
  { unfold ProgressService.update_entry, ProgressService.apply_status.
    fold e0. rewrite S. apply String.eqb_neq in NW. rewrite NW.
    cbn [Py.bind]. apply String.eqb_neq in NW.
    now apply recompute_partial. }
  destruct (update_series_progress_commit _ now _ _ payload _ _ Q U)
    as (db' & Run & Q' & _).
  exists db'. eexists. split; [exact Run|].
  split; [exact Q'|].
  subst y.
  cbn [WatchEntry.watched_episodes WatchEntry.status WatchEntry.set_status].
  split; [exact W0|]. unfold partial_status.
  cbn [WatchEntry.watched_episodes WatchEntry.set_status]. rewrite W0.
  cbn [Py.or0].
  destruct (Z.ltb_spec 0 k), (Z.ltb_spec 0 (Z.max 0 k)); try lia; reflexivity.
Qed.

Lemma update_below_total_witness :
  let done :=
    WatchEntry.mk (Some 1) 7 "series" 1 "watched" (Some 2) (Some 8)
                  (Some 18) (Some 18) (Some 100) (Some 101) None (Some 1) in
  exists db' entry',
    ProgressService.update_series_progress
      (set_watch_entries [done] sample_catalog) 102 7 1
      (Payload.mk (Some 5) None None (Some "paused") [])
    = Py.Ok (db', WatchEntry.to_dict entry')
    /\ query_entry db' 7 "series" 1 = Some entry'
    /\ WatchEntry.watched_episodes entry' = Some (Z.max 0 5)
    /\ WatchEntry.status entry'
       = (if (0 <? 5)%Z then "watching" else "pending").
Proof.
  intros done.
  apply (update_below_total (set_watch_entries [done] sample_catalog)
           102 7 1 18 5 "paused"
           (Payload.mk (Some 5) None None (Some "paused") []) done);
    [reflexivity|reflexivity|reflexivity|discriminate|reflexivity|lia].
Defined.


